(** * st2client [commands/action.py]: the action-invocation pipeline

    A shallow embedding of [ActionRunCommand] (Python 2, POSIX paths):
    the schema merger [_get_params_types], the value transformers and
    [normalize], the argument scan of [run] with its file post-pass, the
    submission and polling of the execution, and the ordering used by the
    help renderer ([_sort_parameters]).

    Conventions.
    - Python [str] (a byte string in Python 2) is [string]; the text that
      comes back from the API is ASCII, so [str] and [unicode] are not told
      apart.
    - A Python dict keyed by names is a [gmap string _]; a Python set of
      names is a [gset string].
    - A call either returns, raises, or leaves the fragment of a library
      function that is modelled here ([Unmodelled]); loops carry fuel. *)

From Stdlib Require Import ZArith Ascii String List Sorted Permutation SpecFloat.
From stdpp Require Import gmap strings list sets fin_maps.

Local Open Scope Z_scope.

(** ** Python values *)

#[local] Unset Elimination Schemes.
Inductive pyval : Type :=
  | PNone
  | PBool (b : bool)
  | PInt (n : Z)
  | PFloat (f : spec_float)
  | PStr (s : string)
  | PList (l : list pyval)
  | PDict (d : list (string * pyval)).
#[local] Set Elimination Schemes.

(** Truth value testing, as [if x:] and [not x] do it. *)
Definition truthy (v : pyval) : bool :=
  match v with
  | PNone => false
  | PBool b => b
  | PInt n => negb (n =? 0)
  | PFloat (S754_zero _) => false
  | PFloat _ => true
  | PStr s => negb (bool_decide (s = EmptyString))
  | PList l => negb (bool_decide (length l = 0%nat))
  | PDict d => negb (bool_decide (length d = 0%nat))
  end.

(** [hash(x)] is defined for every value but lists and dicts. *)
Definition hashable (v : pyval) : bool :=
  match v with
  | PList _ | PDict _ => false
  | _ => true
  end.

Definition type_name (v : pyval) : string :=
  match v with
  | PNone => "NoneType"
  | PBool _ => "bool"
  | PInt _ => "int"
  | PFloat _ => "float"
  | PStr _ => "str"
  | PList _ => "list"
  | PDict _ => "dict"
  end.

(** ** Exceptions and results *)

Inductive exn_class : Type :=
  | ValueError
  | TypeError
  | KeyError
  | AttributeError
  | IOError
  | ResourceNotFoundError
  | SystemExit
  | OtherError (name : string).

(** An exception: its class and the text [str(e)] gives. *)
Record exn : Type := Exn { exn_cls : exn_class; exn_str : string }.

(** [SystemExit] derives from [BaseException] only: [except Exception]
    lets it through. *)
Definition is_Exception (e : exn) : bool :=
  match exn_cls e with
  | SystemExit => false
  | _ => true
  end.

Inductive result (A : Type) : Type :=
  | Ok (a : A)
  | Raise (e : exn)
  | Unmodelled
  | OutOfFuel.
Arguments Ok {A} a.
Arguments Raise {A} e.
Arguments Unmodelled {A}.
Arguments OutOfFuel {A}.

#[global] Instance result_ret : MRet result := fun A a => Ok a.

#[global] Instance result_bind : MBind result := fun A B k r =>
  match r with
  | Ok a => k a
  | Raise e => Raise e
  | Unmodelled => Unmodelled
  | OutOfFuel => OutOfFuel
  end.

(** ** Strings *)

Module Str.

Definition eqc (a b : ascii) : bool := bool_decide (a = b).

(** [c in s] for a one-character [c]. *)
Fixpoint has_char (c : ascii) (s : string) : bool :=
  match s with
  | EmptyString => false
  | String a s' => eqc a c || has_char c s'
  end.

(** [sub in s]. *)
Fixpoint contains (sub s : string) : bool :=
  String.prefix sub s ||
  match s with
  | EmptyString => false
  | String _ s' => contains sub s'
  end.

Definition startswith (s p : string) : bool := String.prefix p s.

(** [s.split(c)] for a one-character separator. *)
Fixpoint split (c : ascii) (s : string) : list string :=
  match s with
  | EmptyString => [EmptyString]
  | String a s' =>
      if eqc a c then EmptyString :: split c s'
      else match split c s' with
           | h :: t => String a h :: t
           | [] => [String a EmptyString]
           end
  end.

(** [s.split(c, 1)]: at most one cut, at the first [c]. *)
Fixpoint split1 (c : ascii) (s : string) : list string :=
  match s with
  | EmptyString => [EmptyString]
  | String a s' =>
      if eqc a c then [EmptyString; s']
      else match split1 c s' with
           | h :: t => String a h :: t
           | [] => [String a EmptyString]
           end
  end.

(** [sep.join(l)]. *)
Definition join (sep : string) (l : list string) : string :=
  String.concat sep l.

(** [str.isspace] of one byte in the C locale. *)
Definition is_space (c : ascii) : bool :=
  match N_of_ascii c with
  | 9 | 10 | 11 | 12 | 13 | 32 => true
  | _ => false
  end%N.

Fixpoint lstrip (s : string) : string :=
  match s with
  | EmptyString => EmptyString
  | String a s' => if is_space a then lstrip s' else s
  end.

Fixpoint rstrip (s : string) : string :=
  match s with
  | EmptyString => EmptyString
  | String a s' =>
      match rstrip s' with
      | EmptyString => if is_space a then EmptyString else String a EmptyString
      | r => String a r
      end
  end.

(** [s.strip()]. *)
Definition strip (s : string) : string := rstrip (lstrip s).

Definition in_range (lo hi : N) (c : ascii) : bool :=
  ((lo <=? N_of_ascii c) && (N_of_ascii c <=? hi))%N.

Definition is_lower (c : ascii) : bool := in_range 97 122 c.
Definition is_upper (c : ascii) : bool := in_range 65 90 c.
Definition is_digit (c : ascii) : bool := in_range 48 57 c.
Definition is_alpha (c : ascii) : bool := is_lower c || is_upper c.

Definition upper (c : ascii) : ascii :=
  if is_lower c then ascii_of_N (N_of_ascii c - 32) else c.
Definition lower (c : ascii) : ascii :=
  if is_upper c then ascii_of_N (N_of_ascii c + 32) else c.

Fixpoint map (f : ascii -> ascii) (s : string) : string :=
  match s with
  | EmptyString => EmptyString
  | String a s' => String (f a) (map f s')
  end.

Fixpoint all (p : ascii -> bool) (s : string) : bool :=
  match s with
  | EmptyString => true
  | String a s' => p a && all p s'
  end.

(** [s[1:]]. *)
Definition tail (s : string) : string :=
  match s with
  | EmptyString => EmptyString
  | String _ s' => s'
  end.

(** [s.capitalize()]: first byte upper-cased, the rest lower-cased. *)
Definition capitalize (s : string) : string :=
  match s with
  | EmptyString => EmptyString
  | String a s' => String (upper a) (map lower s')
  end.

(** [s.lower()]. *)
Definition lowercase (s : string) : string := map lower s.

(** The value of a string of decimal digits, most significant first. *)
Fixpoint digits_val (acc : Z) (s : string) : Z :=
  match s with
  | EmptyString => acc
  | String a s' => digits_val (10 * acc + Z.of_N (N_of_ascii a - 48)) s'
  end.

Definition is_digits (s : string) : bool :=
  negb (bool_decide (s = EmptyString)) && all is_digit s.

End Str.

(** ** Schemas, runner types and actions *)

(** One parameter's attributes ([type], [immutable], [position], ...) are a
    dict from attribute name to value; a schema maps parameter names to such
    dicts. *)
Abbreviation param_meta := (gmap string pyval).
Abbreviation param_schema := (gmap string (gmap string pyval)).

(** The attributes of the [RunnerType] and [Action] resources that the
    command reads. [required_parameters] is read with [getattr] and a
    default, so it may be absent. *)
Record RunnerType : Type := {
  runner_parameters : gmap string (gmap string pyval);
  runner_required_parameters : option (list string)
}.

Record Action : Type := {
  action_pack : string;
  action_name : string;
  action_runner_type : string;
  action_parameters : gmap string (gmap string pyval);
  action_required_parameters : option (list string)
}.

(** [d.get(k, dflt)]. *)
Definition dict_get {V} (d : gmap string V) (k : string) (dflt : V) : V :=
  default dflt (d !! k).

(** ** Schema merger: [_get_params_types] *)

(** The inner [is_immutable]: it returns [True] or whatever the action's
    [immutable] attribute holds; the caller tests its truth value. *)
Definition is_immutable (runner_param_meta action_param_meta : gmap string pyval)
  : pyval :=
  if truthy (dict_get runner_param_meta "immutable" (PBool false))
  then PBool true
  else dict_get action_param_meta "immutable" (PBool false).

Definition merged_parameters (runner : RunnerType) (action : Action)
  : gmap string (gmap string pyval) :=
  action_parameters action ∪ runner_parameters runner.

Definition listed_required (runner : RunnerType) (action : Action) : list string :=
  default [] (runner_required_parameters runner) ++
  default [] (action_required_parameters action).

(** The loop over [parameters.keys()] adds to [immutable] every key that
    passes [is_immutable]: a filter of the key set. *)
Definition _get_params_types (runner : RunnerType) (action : Action)
  : gmap string (gmap string pyval) * gset string * gset string * gset string :=
  let runner_params := runner_parameters runner in
  let action_params := action_parameters action in
  let parameters := action_params ∪ runner_params in
  let required : gset string := list_to_set (listed_required runner action) in
  let immutable : gset string :=
    filter (fun param =>
              truthy (is_immutable (dict_get runner_params param ∅)
                                   (dict_get action_params param ∅)) = true)
           (dom parameters) in
  let required := required ∖ immutable in
  let optional := dom parameters ∖ required ∖ immutable in
  (parameters, required, optional, immutable).

(** A schema declares [n] immutable when its entry for [n] carries a true
    [immutable] attribute. *)
Definition declares_immutable (schema : gmap string (gmap string pyval))
  (n : string) : Prop :=
  exists meta v, schema !! n = Some meta /\ meta !! "immutable" = Some v /\
                 truthy v = true.


(** ** The Python 2.7 library, as far as [run] uses it *)

Definition of_sum {A} (r : exn + A) : result A :=
  match r with
  | inl e => Raise e
  | inr a => Ok a
  end.

(** [float] and [json.loads] are taken as given: no property below looks
    inside them. *)
Class Library : Type := {
  py_float : string -> exn + pyval;
  json_loads : string -> exn + pyval
}.

Module Py2.

Definition is_ident_start (c : ascii) : bool :=
  Str.is_alpha c || Str.eqc c "_".
Definition is_ident_char (c : ascii) : bool :=
  Str.is_alpha c || Str.is_digit c || Str.eqc c "_".

Definition is_identifier (s : string) : bool :=
  match s with
  | EmptyString => false
  | String a s' => is_ident_start a && Str.all is_ident_char s'
  end.

Definition keywords : list string :=
  ["and"; "as"; "assert"; "break"; "class"; "continue"; "def"; "del";
   "elif"; "else"; "except"; "exec"; "finally"; "for"; "from"; "global";
   "if"; "import"; "in"; "is"; "lambda"; "not"; "or"; "pass"; "print";
   "raise"; "return"; "try"; "while"; "with"; "yield"].

(** A decimal integer literal: [0], or a non-zero digit followed by
    digits (a leading zero starts an octal literal). *)
Definition is_decimal_literal (s : string) : bool :=
  match s with
  | EmptyString => false
  | String a s' =>
      if Str.eqc a "0" then bool_decide (s' = EmptyString)
      else Str.is_digit a && Str.all Str.is_digit s'
  end.

(** [ast.literal_eval(s)] on two kinds of source text.
    - A lone name: [None], [True] and [False] are the safe names;
      any other name is a [Name] node that [_convert] refuses with
      [ValueError('malformed string')].
    - A lone decimal integer literal: a [Num] node, returned as the
      number.
    Keywords, other literals, operators, blanks and text that does not
    parse are outside the fragment. *)
Definition literal_eval (s : string) : result pyval :=
  if is_identifier s then
    if bool_decide (s ∈ keywords) then Unmodelled
    else if bool_decide (s = "None") then Ok PNone
    else if bool_decide (s = "True") then Ok (PBool true)
    else if bool_decide (s = "False") then Ok (PBool false)
    else Raise (Exn ValueError "malformed string")
  else if is_decimal_literal s then Ok (PInt (Str.digits_val 0 s))
  else Unmodelled.

(** [int(s)] on an optionally signed run of digits, and on a run of
    letters (which it refuses, quoting the text); blanks, other bytes
    and the empty string are outside the fragment. *)
Definition int (s : string) : result pyval :=
  match s with
  | String "-" s' =>
      if Str.is_digits s' then Ok (PInt (- Str.digits_val 0 s')) else Unmodelled
  | String "+" s' =>
      if Str.is_digits s' then Ok (PInt (Str.digits_val 0 s')) else Unmodelled
  | _ =>
      if Str.is_digits s then Ok (PInt (Str.digits_val 0 s))
      else if negb (bool_decide (s = EmptyString)) && Str.all Str.is_alpha s
      then Raise (Exn ValueError
                    ("invalid literal for int() with base 10: '" +:+ s +:+ "'"))
      else Unmodelled
  end.

End Py2.

(** [os.path] is [posixpath]. *)
Module posixpath.

Definition endswith_slash (s : string) : bool :=
  match String.get (String.length s - 1) s with
  | Some c => Str.eqc c "/" && negb (bool_decide (s = EmptyString))
  | None => false
  end.

(** [join(a, b)]. *)
Definition join (a b : string) : string :=
  if Str.startswith b "/" then b
  else if bool_decide (a = EmptyString) || endswith_slash a then a +:+ b
  else a +:+ "/" +:+ b.

(** [basename(p)]: what follows the last slash. *)
Definition basename (p : string) : string :=
  List.last (Str.split "/" p) EmptyString.

(** One turn of the loop of [normpath] over the components; [new_comps]
    is kept last component first. *)
Definition normpath_step (initial_slashes : nat) (new_comps : list string)
  (comp : string) : list string :=
  if bool_decide (comp = EmptyString) || bool_decide (comp = ".") then new_comps
  else if negb (bool_decide (comp = "..")) ||
          (bool_decide (initial_slashes = 0%nat) &&
           bool_decide (new_comps = [])) ||
          match new_comps with
          | l :: _ => bool_decide (l = "..")
          | [] => false
          end
       then comp :: new_comps
       else List.tl new_comps.

(** [normpath(path)]. *)
Definition normpath (path : string) : string :=
  if bool_decide (path = EmptyString) then "."
  else
    let initial_slashes : nat :=
      if Str.startswith path "/" then
        if Str.startswith path "//" && negb (Str.startswith path "///")
        then 2%nat else 1%nat
      else 0%nat in
    let comps := Str.split "/" path in
    let new_comps := List.rev (fold_left (normpath_step initial_slashes) comps []) in
    let path := Str.join "/" new_comps in
    let path := String.concat EmptyString (replicate initial_slashes "/") +:+ path in
    if bool_decide (path = EmptyString) then "." else path.

End posixpath.

(** What the command sees of the file system. [read_bytes p] is
    [open(p, 'rb').read()]. *)
Record FileSystem : Type := {
  getcwd : string;
  path_exists : string -> bool;
  path_isfile : string -> bool;
  read_bytes : string -> exn + string
}.

(** ** Value transformer *)

(** The token [@k=path]. *)
Definition file_token (k path : string) : string :=
  String "@" (k +:+ String "=" path).

Arguments file_token : simpl never.

(** The tokens [@k=path] of a list of pairs of a key and a path. *)
Definition file_tokens (files : list (string * string)) : list string :=
  List.map (fun f => file_token f.1 f.2) files.

(** The path a file-valued parameter is read from. *)
Definition resolved_path (fs : FileSystem) (v : string) : string :=
  posixpath.normpath (posixpath.join (getcwd fs) v).

(** [v] resolves to an existing regular file whose bytes are [content]. *)
Definition regular_file (fs : FileSystem) (v content : string) : Prop :=
  path_exists fs (resolved_path fs v) = true /\
  path_isfile fs (resolved_path fs v) = true /\
  read_bytes fs (resolved_path fs v) = inr content.

(** The double-quote character, as a string. *)
Definition dq : string := String (ascii_of_nat 34) EmptyString.

(** The inner [read_file]. *)
Definition read_file (fs : FileSystem) (file_path : string) : result string :=
  if negb (path_exists fs file_path) then
    Raise (Exn ValueError ("File " +:+ dq +:+ file_path +:+ dq +:+ " doesn't exist"))
  else if negb (path_isfile fs file_path) then
    Raise (Exn ValueError (dq +:+ file_path +:+ dq +:+ " is not a file"))
  else
    of_sum (read_bytes fs file_path).

(** A runner type whose [required_parameters] names a parameter that no
    schema declares, and an action without parameters. *)
Definition ghost_runner : RunnerType :=
  {| runner_parameters := ∅; runner_required_parameters := Some ["ghost"] |}.

Definition bare_action : Action :=
  {| action_pack := "core"; action_name := "noop"; action_runner_type := "run-local";
     action_parameters := ∅; action_required_parameters := None |}.

(** A runner type with one boolean parameter, an integer one and an
    untyped one. *)
Definition flag_runner : RunnerType :=
  {| runner_parameters :=
       {[ "flag" := {[ "type" := PStr "boolean" ]};
          "x" := {[ "type" := PStr "integer" ]};
          "y" := {[ "description" := PStr "free text" ]} ]};
     runner_required_parameters := None |}.

(** An action that types [x] and [y] itself. *)
Definition typed_action : Action :=
  {| action_pack := "core"; action_name := "typed"; action_runner_type := "run-local";
     action_parameters :=
       {[ "x" := {[ "type" := PStr "string" ]};
          "y" := {[ "type" := PStr "array" ]} ]};
     action_required_parameters := None |}.

(** A library whose [float] and [json.loads] refuse every text; it stands
    in where a closed instance is needed and neither is called. *)
Definition refusing_library : Library :=
  {| py_float := fun _ => inl (Exn ValueError "could not convert string to float");
     json_loads := fun _ => inl (Exn ValueError "No JSON object could be decoded") |}.

(** A file system with one regular file, one directory and nothing else. *)
Definition one_file_fs : FileSystem :=
  {| getcwd := "/home/st2";
     path_exists := fun p => bool_decide (p = "/home/st2/data.txt") ||
                             bool_decide (p = "/home/st2/conf.d");
     path_isfile := fun p => bool_decide (p = "/home/st2/data.txt");
     read_bytes := fun p =>
       if bool_decide (p = "/home/st2/data.txt") then inr "a=1"
       else inl (Exn IOError ("[Errno 2] No such file or directory: '" +:+ p +:+ "'")) |}.

Section Transformers.

Context `{Library}.

(** The [transformer] table: from a type name to the conversion of the
    raw text. *)
Definition transformer : gmap string (string -> result pyval) :=
  list_to_map
    [ ("array", fun cs_x => Ok (PList (List.map (fun v => PStr (Str.strip v))
                                                (Str.split "," cs_x))));
      ("boolean", fun x => Py2.literal_eval (Str.capitalize x));
      ("integer", Py2.int);
      ("number", fun x => of_sum (py_float x));
      ("object", fun x => of_sum (json_loads x));
      ("string", fun x => Ok (PStr x)) ].

(** ['type' in param and param['type'] in transformer], with the
    conversion found. Membership in a dict hashes the key, which a list
    or a dict refuses. *)
Definition known_transformer (param : gmap string pyval)
  : result (option (string -> result pyval)) :=
  match param !! "type" with
  | None => Ok None
  | Some ty =>
      if hashable ty then
        Ok (match ty with
            | PStr t => transformer !! t
            | _ => None
            end)
      else Raise (Exn TypeError ("unhashable type: '" +:+ type_name ty +:+ "'"))
  end.

(** The lookup of one schema in [normalize]. *)
Definition schema_transformer (schema : gmap string (gmap string pyval))
  (name : string) : result (option (string -> result pyval)) :=
  match schema !! name with
  | Some param => known_transformer param
  | None => Ok None
  end.

(** The inner [normalize]. *)
Definition normalize (runner : RunnerType) (action : Action)
  (name value : string) : result pyval :=
  r ← schema_transformer (runner_parameters runner) name;
  match r with
  | Some f => f value
  | None =>
      a ← schema_transformer (action_parameters action) name;
      match a with
      | Some f => f value
      | None => Ok (PStr value)
      end
  end.

(** The [type] attribute a schema declares for a name, if any. *)
Definition declared_type (schema : gmap string (gmap string pyval))
  (name : string) : option pyval :=
  schema !! name ≫= (fun param => param !! "type").

(** A schema defines a known type for a name when the declared [type] is
    one of the names of the [transformer] table; [known_type] is then the
    conversion of that type. *)
Definition known_type (schema : gmap string (gmap string pyval))
  (name : string) : option (string -> result pyval) :=
  declared_type schema name ≫=
    (fun ty => match ty with
               | PStr t => transformer !! t
               | _ => None
               end).

(** The [type] a schema declares for a name when it is a list or a dict:
    the membership test of [normalize] cannot hash it. *)
Definition unhashable_type (schema : gmap string (gmap string pyval))
  (name : string) : option pyval :=
  declared_type schema name ≫=
    (fun ty => if hashable ty then None else Some ty).

(** The error of hashing a list or a dict. *)
Definition unhashable_error (ty : pyval) : exn :=
  Exn TypeError ("unhashable type: '" +:+ type_name ty +:+ "'").

(** ** Argument parser *)

(** The handler of the [try] around one keyed token: an [Exception]
    whose text contains ['malformed string'] is replaced. *)
Definition boolean_message : string :=
  "Invalid value for boolean parameter. Valid values are: true, false".

Definition on_exception {A} (r : result A) : result A :=
  match r with
  | Raise e =>
      if is_Exception e && Str.contains "malformed string" (exn_str e)
      then Raise (Exn ValueError boolean_message)
      else Raise e
  | _ => r
  end.

(** The body of the loop for a token that contains [=]. *)
Definition keyed_token (fs : FileSystem) (runner : RunnerType) (action : Action)
  (arg : string) (params : gmap string pyval) : result (gmap string pyval) :=
  match Str.split1 "=" arg with
  | [k; v] =>
      let is_file := Str.startswith k "@" in
      let k := if is_file then Str.tail k else k in
      on_exception
        (if is_file then
           let file_path := resolved_path fs v in
           let file_name := posixpath.basename file_path in
           content ← read_file fs file_path;
           Ok (<["file_content" := PStr content]>
                 (<["_file_name" := PStr file_name]> params))
         else
           x ← normalize runner action k v;
           Ok (<[k := x]> params))
  | _ => Raise (Exn ValueError "need more than 1 value to unpack")
  end.

(** The keys the loop body assigns for one token. *)
Definition token_keys (arg : string) : list string :=
  match Str.split1 "=" arg with
  | [k; _] => if Str.startswith k "@" then ["_file_name"; "file_content"] else [k]
  | _ => ["cmd"]
  end.

(** The loop over [args.parameters]; [args] is [args.parameters[idx:]]. *)
Fixpoint scan_parameters (fs : FileSystem) (runner : RunnerType) (action : Action)
  (args : list string) (params : gmap string pyval) : result (gmap string pyval) :=
  match args with
  | [] => Ok params
  | arg :: rest =>
      if Str.has_char "=" arg then
        params' ← keyed_token fs runner action arg params;
        scan_parameters fs runner action rest params'
      else
        Ok (<["cmd" := PStr (Str.join " " args)]> params)
  end.

(** [d[k]] for reading. *)
Definition dict_item (d : gmap string pyval) (k : string) : result pyval :=
  match d !! k with
  | Some v => Ok v
  | None => Raise (Exn KeyError ("'" +:+ k +:+ "'"))
  end.

(** [del d[k]]. *)
Definition dict_del (d : gmap string pyval) (k : string)
  : result (gmap string pyval) :=
  match d !! k with
  | Some _ => Ok (delete k d)
  | None => Raise (Exn KeyError ("'" +:+ k +:+ "'"))
  end.

(** The block after the loop. *)
Definition file_defaults (params : gmap string pyval)
  : result (gmap string pyval) :=
  if bool_decide (is_Some (params !! "file_content")) then
    let params :=
      if bool_decide (is_Some (params !! "method")) then params
      else <["method" := PStr "POST"]> params in
    params ←
      (if bool_decide (is_Some (params !! "file_name")) then Ok params
       else v ← dict_item params "_file_name";
            Ok (<["file_name" := v]> params));
    dict_del params "_file_name"
  else Ok params.

(** From [execution.parameters = dict()] to the end of the post-pass. *)
Definition resolve_parameters (fs : FileSystem) (runner : RunnerType)
  (action : Action) (args : list string) : result (gmap string pyval) :=
  params ← scan_parameters fs runner action args ∅;
  file_defaults params.

End Transformers.

(** ** Executions and the collaborators *)

Definition ACTIONEXEC_STATUS_SCHEDULED : string := "scheduled".
Definition ACTIONEXEC_STATUS_RUNNING : string := "running".

(** An [ActionExecution] resource. A fresh one has only [action] and
    [parameters]; [id], [status] and [result] are attributes the service
    sets. *)
Record ActionExecution : Type := {
  exec_action : string;
  exec_parameters : gmap string pyval;
  exec_id : option string;
  exec_status : option string;
  exec_result : option pyval
}.

(** Reading an attribute that may be missing. *)
Definition getattr {A} (attr : string) (o : option A) : result A :=
  match o with
  | Some a => Ok a
  | None =>
      Raise (Exn AttributeError
               ("'ActionExecution' object has no attribute '" +:+ attr +:+ "'"))
  end.

(** The parsed command line. *)
Record Args : Type := {
  args_ref_or_id : option string;
  args_parameters : list string;
  args_async : bool;
  args_json : bool;
  args_help : bool
}.

(** The managers behind [self.app.client], over a service state [S]. *)
Class Client (S : Type) : Type := {
  get_resource_by_ref_or_id : string -> S -> (exn + option Action) * S;
  runner_get_by_name : string -> S -> (exn + option RunnerType) * S;
  execution_create : ActionExecution -> S -> (exn + ActionExecution) * S;
  execution_get_by_id : string -> S -> (exn + ActionExecution) * S
}.

(** What [run] does to the outside, in order. *)
Inductive event : Type :=
  | EvGetAction (ref_or_id : string)
  | EvGetRunner (name : string)
  | EvCreate (execution : ActionExecution)
  | EvGetById (id : string)
  | EvSleep (seconds : Z)
  | EvStdout (text : string).

Record world (S : Type) : Type := World {
  service : S;
  trace : list event
}.
Arguments World {S} service trace.
Arguments service {S} w.
Arguments trace {S} w.

(** Computations of [run]: they read and change the world and end in a
    [result]. *)
Definition M (S A : Type) : Type := world S -> result A * world S.

#[global] Instance M_ret {S} : MRet (M S) := fun A a w => (Ok a, w).

#[global] Instance M_bind {S} : MBind (M S) := fun A B k m w =>
  match m w with
  | (Ok a, w') => k a w'
  | (Raise e, w') => (Raise e, w')
  | (Unmodelled, w') => (Unmodelled, w')
  | (OutOfFuel, w') => (OutOfFuel, w')
  end.

Section Run.

Context `{Library} {S : Type} `{Client S}.

Definition lift {A} (r : result A) : M S A := fun w => (r, w).

Definition emit (ev : event) : M S unit :=
  fun w => (Ok tt, World (service w) (trace w ++ [ev])).

(** A call to a manager: logged, then answered by the service. *)
Definition call {A} (ev : event) (f : S -> (exn + A) * S) : M S A :=
  fun w =>
    let '(r, s') := f (service w) in
    (of_sum r, World s' (trace w ++ [ev])).

(** The [while] loop of the synchronous mode. *)
Fixpoint poll (fuel : nat) (json : bool) (execution : ActionExecution)
  : M S ActionExecution :=
  status ← lift (getattr "status" (exec_status execution));
  if bool_decide (status = ACTIONEXEC_STATUS_SCHEDULED) ||
     bool_decide (status = ACTIONEXEC_STATUS_RUNNING)
  then
    match fuel with
    | O => lift OutOfFuel
    | Datatypes.S fuel' =>
        emit (EvSleep 1);;
        (if negb json then emit (EvStdout ".") else mret tt);;
        id ← lift (getattr "id" (exec_id execution));
        execution' ← call (EvGetById id) (execution_get_by_id id);
        poll fuel' json execution'
    end
  else mret execution.

(** [try: execution.result = json.loads(execution.result) except: pass]. *)
Definition decode_result (execution : ActionExecution) : ActionExecution :=
  match exec_result execution with
  | Some (PStr text) =>
      match json_loads text with
      | inr v =>
          {| exec_action := exec_action execution;
             exec_parameters := exec_parameters execution;
             exec_id := exec_id execution;
             exec_status := exec_status execution;
             exec_result := Some v |}
      | inl _ => execution
      end
  | _ => execution
  end.

(** [ActionRunCommand.run]. *)
Definition run (fuel : nat) (fs : FileSystem) (args : Args)
  : M S ActionExecution :=
  match args_ref_or_id args with
  | None | Some EmptyString => lift (Raise (Exn SystemExit "2"))
  | Some ref_or_id =>
      action ← call (EvGetAction ref_or_id) (get_resource_by_ref_or_id ref_or_id);
      match action with
      | None =>
          lift (Raise (Exn ResourceNotFoundError
                         ("Action " +:+ dq +:+ ref_or_id +:+ dq +:+
                          " cannot be found.")))
      | Some action =>
          runner ← call (EvGetRunner (action_runner_type action))
                        (runner_get_by_name (action_runner_type action));
          match runner with
          | None =>
              lift (Raise (Exn ResourceNotFoundError
                             ("Runner type " +:+ dq +:+ action_runner_type action
                              +:+ dq +:+ " for action " +:+ dq +:+
                              action_name action +:+ dq +:+ " cannot be found.")))
          | Some runner =>
              let action_ref :=
                Str.join "." [action_pack action; action_name action] in
              parameters ←
                lift (resolve_parameters fs runner action (args_parameters args));
              let execution :=
                {| exec_action := action_ref;
                   exec_parameters := parameters;
                   exec_id := None;
                   exec_status := None;
                   exec_result := None |} in
              execution ← call (EvCreate execution) (execution_create execution);
              if negb (args_async args) then
                execution ← poll fuel (args_json args) execution;
                emit (EvStdout (String (ascii_of_nat 10) EmptyString));;
                mret (decode_result execution)
              else mret execution
          end
      end
  end.

End Run.

(** ** Help renderer: the order of the parameters *)

(** What Python 2 compares when it sorts the keys met here: [None] is
    smaller than anything, numbers ([bool] included) compare by value and
    are smaller than text, text compares byte by byte. Comparing floats,
    lists and dicts is outside the fragment. *)
Inductive sort_key : Type :=
  | KNone
  | KNum (n : Z)
  | KText (s : string).

Definition as_key (v : pyval) : option sort_key :=
  match v with
  | PNone => Some KNone
  | PBool b => Some (KNum (if b then 1 else 0))
  | PInt n => Some (KNum n)
  | PStr s => Some (KText s)
  | _ => None
  end.

Definition key_lt (a b : sort_key) : bool :=
  match a, b with
  | KNone, KNone => false
  | KNone, _ => true
  | _, KNone => false
  | KNum x, KNum y => x <? y
  | KNum _, KText _ => true
  | KText _, KNum _ => false
  | KText s, KText t => String.ltb s t
  end.

(** [a < b]. *)
Definition py2_lt (a b : pyval) : result bool :=
  match as_key a, as_key b with
  | Some x, Some y => Ok (key_lt x y)
  | _, _ => Unmodelled
  end.

(** [sorted(l, key=key)]: a stable sort that only asks [<] of the keys.
    [insert_sorted] puts [x], which came earlier in the input, before the
    first element whose key is not smaller than its own. *)
Fixpoint insert_sorted (key : string -> pyval) (x : string) (l : list string)
  : result (list string) :=
  match l with
  | [] => Ok [x]
  | y :: l' =>
      b ← py2_lt (key y) (key x);
      if b : bool then r ← insert_sorted key x l'; Ok (y :: r)
      else Ok (x :: l)
  end.

Fixpoint sorted (key : string -> pyval) (l : list string) : result (list string) :=
  match l with
  | [] => Ok []
  | x :: l' => s ← sorted key l'; insert_sorted key x s
  end.

(** The same sort when every key is already a [sort_key]. *)
Fixpoint insert_by (k : string -> sort_key) (x : string) (l : list string)
  : list string :=
  match l with
  | [] => [x]
  | y :: l' => if key_lt (k y) (k x) then y :: insert_by k x l' else x :: l
  end.

Fixpoint sort_by (k : string -> sort_key) (l : list string) : list string :=
  match l with
  | [] => []
  | x :: l' => insert_by k x (sort_by k l')
  end.

(** [a <= b] on sort keys: [b] is not smaller than [a]. *)
Definition key_le (a b : sort_key) : Prop := key_lt b a = false.

(** [_get_parameter_sort_value]. *)
Definition _get_parameter_sort_value (parameters : gmap string (gmap string pyval))
  (name : string) : pyval :=
  match parameters !! name with
  | None => PNone
  | Some parameter =>
      if bool_decide (parameter = ∅) then PNone
      else dict_get parameter "position" (PStr name)
  end.

(** [_sort_parameters]; [names] lists the given names in the order the
    iteration over them yields. *)
Definition _sort_parameters (parameters : gmap string (gmap string pyval))
  (names : list string) : result (list string) :=
  sorted (_get_parameter_sort_value parameters) names.

(** The sort key as the specification words it: the declared [position]
    when there is one, the name otherwise. *)
Definition spec_sort_value (parameters : gmap string (gmap string pyval))
  (name : string) : pyval :=
  match parameters !! name ≫= (fun parameter => parameter !! "position") with
  | Some position => position
  | None => PStr name
  end.

(** The sort key of a name, when it is one that can be compared. *)
Definition sort_key_of (parameters : gmap string (gmap string pyval))
  (name : string) : sort_key :=
  default KNone (as_key (_get_parameter_sort_value parameters name)).

(** Three parameters with the positions 2, 0 and 1, three without a
    position, and two whose schema is empty. *)
Definition positioned : gmap string (gmap string pyval) :=
  {[ "alpha" := {[ "position" := PInt 2 ]};
     "beta" := {[ "position" := PInt 0; "type" := PStr "string" ]};
     "gamma" := {[ "position" := PInt 1 ]};
     "timeout" := {[ "type" := PStr "integer" ]};
     "cwd" := {[ "type" := PStr "string" ]};
     "env" := {[ "type" := PStr "object" ]};
     "b" := ∅;
     "a" := ∅ ]}.

(** [l] is in ascending order of [key]: no element's key is smaller than
    the key of the one before it. *)
Definition ascending (key : string -> pyval) (l : list string) : Prop :=
  Sorted (fun x y => py2_lt (key y) (key x) = Ok false) l.

(** [m] only appends events that satisfy [P] to the trace. *)
Definition emits_only {S A} (P : event -> Prop) (m : M S A) : Prop :=
  forall w, exists evs, trace (m w).2 = trace w ++ evs /\ Forall P evs.

(** ** A scripted service *)

(** The answers of a service, fixed in advance: the action and the runner
    type it knows, the status it gives a new execution, and what successive
    calls of [get_by_id] return. *)
Record script : Type := {
  script_action : option Action;
  script_runner : option RunnerType;
  script_initial_status : string;
  script_fetches : list ActionExecution
}.

Definition with_fetches (s : script) (l : list ActionExecution) : script :=
  {| script_action := script_action s;
     script_runner := script_runner s;
     script_initial_status := script_initial_status s;
     script_fetches := l |}.

#[global] Instance scripted_client : Client script := {|
  get_resource_by_ref_or_id := fun _ s => (inr (script_action s), s);
  runner_get_by_name := fun _ s => (inr (script_runner s), s);
  execution_create := fun e s =>
    (inr {| exec_action := exec_action e;
            exec_parameters := exec_parameters e;
            exec_id := Some "42";
            exec_status := Some (script_initial_status s);
            exec_result := None |}, s);
  execution_get_by_id := fun _ s =>
    match script_fetches s with
    | [] => (inl (Exn IOError "Connection refused"), s)
    | e :: rest => (inr e, with_fetches s rest)
    end
|}.

(** An execution of [core.noop] as the service reports it. *)
Definition reported (status : string) : ActionExecution :=
  {| exec_action := "core.noop";
     exec_parameters := ∅;
     exec_id := Some "42";
     exec_status := Some status;
     exec_result := None |}.

(** Submission answers [scheduled]; the fetches answer [running],
    [running], [succeeded]. *)
Definition three_fetches : script :=
  {| script_action := Some bare_action;
     script_runner := Some flag_runner;
     script_initial_status := "scheduled";
     script_fetches := [reported "running"; reported "running"; reported "succeeded"] |}.

Definition noop_args (async : bool) : Args :=
  {| args_ref_or_id := Some "core.noop";
     args_parameters := [];
     args_async := async;
     args_json := false;
     args_help := false |}.

(** What the synchronous run on [three_fetches] does, in order. *)
Definition three_fetches_trace : list event :=
  [EvGetAction "core.noop"; EvGetRunner "run-local";
   EvCreate {| exec_action := "core.noop"; exec_parameters := ∅;
               exec_id := None; exec_status := None; exec_result := None |};
   EvSleep 1; EvStdout "."; EvGetById "42";
   EvSleep 1; EvStdout "."; EvGetById "42";
   EvSleep 1; EvStdout "."; EvGetById "42";
   EvStdout (String (ascii_of_nat 10) EmptyString)].

Definition is_refetch (ev : event) : bool :=
  match ev with
  | EvGetById _ => true
  | _ => false
  end.

Definition is_create (ev : event) : bool :=
  match ev with
  | EvCreate _ => true
  | _ => false
  end.

(** How many times a trace calls [get_by_id]. *)
Definition refetches (tr : list event) : nat :=
  length (List.filter is_refetch tr).

(** The status keeps the poller waiting. *)
Definition waiting (execution : ActionExecution) : Prop :=
  exec_status execution = Some ACTIONEXEC_STATUS_SCHEDULED \/
  exec_status execution = Some ACTIONEXEC_STATUS_RUNNING.

(** ** Further vocabulary for the properties of the parser and of [run] *)

(** The token [k=v]. *)
Definition plain_token (k v : string) : string := k +:+ String "=" v.

Arguments plain_token : simpl never.

Definition is_stdout (ev : event) : bool :=
  match ev with
  | EvStdout _ => true
  | _ => false
  end.

(** The status is there and is neither [scheduled] nor [running]. *)
Definition settled (execution : ActionExecution) : Prop :=
  exists status,
    exec_status execution = Some status /\
    status ≠ ACTIONEXEC_STATUS_SCHEDULED /\
    status ≠ ACTIONEXEC_STATUS_RUNNING.

(** How many times the character [c] occurs in [s]. *)
Fixpoint count_char (c : ascii) (s : string) : nat :=
  match s with
  | EmptyString => 0%nat
  | String a s' => ((if Str.eqc a c then 1 else 0) + count_char c s')%nat
  end.

(** A runner type whose parameter [port] declares its type as a list of
    type names. *)
Definition union_runner : RunnerType :=
  {| runner_parameters :=
       {[ "port" := {[ "type" := PList [PStr "integer"; PStr "null"] ]} ]};
     runner_required_parameters := None |}.

(** [s] does not start with a blank. *)
Definition starts_clean (s : string) : Prop :=
  match s with
  | EmptyString => True
  | String a _ => Str.is_space a = false
  end.

(** How many times a trace calls [create]. *)
Definition creates (tr : list event) : nat :=
  length (List.filter is_create tr).

(** The execution [run] builds for an action and resolved parameters. *)
Definition fresh_execution (action : Action) (parameters : gmap string pyval)
  : ActionExecution :=
  {| exec_action := Str.join "." [action_pack action; action_name action];
     exec_parameters := parameters;
     exec_id := None;
     exec_status := None;
     exec_result := None |}.

(** The script [s] with another status for a new execution. *)
Definition with_status (status : string) (s : script) : script :=
  {| script_action := script_action s;
     script_runner := script_runner s;
     script_initial_status := status;
     script_fetches := script_fetches s |}.

(** The command line [core.noop x=1 flag=maybe y=2 --json], synchronous. *)
Definition maybe_args : Args :=
  {| args_ref_or_id := Some "core.noop";
     args_parameters := ["x=1"; "flag=maybe"; "y=2"];
     args_async := false;
     args_json := true;
     args_help := false |}.

(** A service that knows no action, and one that knows the action but not
    its runner type. *)
Definition no_action_script : script :=
  {| script_action := None;
     script_runner := None;
     script_initial_status := "scheduled";
     script_fetches := [] |}.

Definition no_runner_script : script :=
  {| script_action := Some bare_action;
     script_runner := None;
     script_initial_status := "scheduled";
     script_fetches := [] |}.

(** ** Help renderer: [print_param], [print_help] and [run_and_print] *)

From stdpp Require Import pretty.

#[global] Instance exn_class_eq_dec : EqDecision exn_class.
Proof. solve_decision. Defined.

#[global] Instance sort_key_eq_dec : EqDecision sort_key.
Proof. solve_decision. Defined.

(** What the command takes from [textwrap], [argparse] and the output
    formatters. [wrapper_fill n text] is [fill] of a [TextWrapper] of width
    78 whose indents are [n] blanks, [textwrap_fill] is [textwrap.fill],
    [parser_usage] is what [parser.print_help()] writes, and the two
    [render] functions are what [print_output] writes for an execution and
    for a text. *)
Class Console : Type := {
  wrapper_fill : nat -> string -> string;
  textwrap_fill : string -> string;
  parser_usage : string;
  render_execution : ActionExecution -> bool -> string;
  render_text : string -> string
}.

(** What [print_help] reads beyond the attributes in [Action]: the
    [description] of the action, and the order in which Python iterates
    over a set of names, which is some enumeration of the set. *)
Class HelpData : Type := {
  action_description : Action -> option pyval;
  set_order : gset string -> list string;
  set_order_perm : forall X, set_order X ≡ₚ elements X
}.

(** ['%s' % v] for the values whose text does not depend on [repr]. *)
Definition py_str (v : pyval) : result string :=
  match v with
  | PStr s => Ok s
  | PInt n => Ok (pretty n)
  | PBool true => Ok "True"
  | PBool false => Ok "False"
  | PNone => Ok "None"
  | _ => Unmodelled
  end.

(** The one-character strings of a string. *)
Fixpoint characters (s : string) : list string :=
  match s with
  | EmptyString => []
  | String a s' => String a EmptyString :: characters s'
  end.

(** The texts of a list of strings, if it is one. *)
Fixpoint texts (l : list pyval) : option (list string) :=
  match l with
  | [] => Some []
  | PStr s :: l' => option_map (cons s) (texts l')
  | _ :: _ => None
  end.

(** [', '.join(v)] for a list of strings and for a string (which is
    iterated character by character). *)
Definition join_enum (v : pyval) : result string :=
  match v with
  | PList l =>
      match texts l with
      | Some items => Ok (Str.join ", " items)
      | None => Unmodelled
      end
  | PStr s => Ok (Str.join ", " (characters s))
  | _ => Unmodelled
  end.

(** The text [wrapper.fill] is given for each attribute. A [description]
    that is not text is outside the fragment. *)
Definition description_text (v : pyval) : result string :=
  match v with
  | PStr s => Ok s
  | _ => Unmodelled
  end.

Definition type_text (v : pyval) : result string :=
  t ← py_str v; Ok ("Type: " +:+ t).

Definition enum_text (v : pyval) : result string :=
  j ← join_enum v; Ok ("Enum: " +:+ j).

Definition default_text (v : pyval) : result string :=
  t ← py_str v; Ok ("Default: " +:+ t).

Definition newline : string := String (ascii_of_nat 10) EmptyString.

Section Help.

Context `{Library} `{Console} `{HelpData} {S : Type} `{Client S}.

(** [print(text)]. *)
Definition print_line (text : string) : M S unit :=
  emit (EvStdout (text +:+ newline)).

(** [if attr in schema and schema[attr]: print(wrapper.fill(...))]. *)
Definition attribute_line (schema : gmap string pyval) (attr : string)
  (text_of : pyval -> result string) : M S unit :=
  match schema !! attr with
  | Some v =>
      if truthy v then
        text ← lift (text_of v); print_line (wrapper_fill 8 text)
      else mret tt
  | None => mret tt
  end.

(** [print_param]; [schema] is [None] when the table has no entry. *)
Definition print_param (name : string) (schema : option (gmap string pyval))
  : M S unit :=
  match schema with
  | None =>
      lift (Raise (Exn ValueError
                     ("Missing schema for parameter " +:+ dq +:+ name +:+ dq)))
  | Some schema =>
      if bool_decide (schema = ∅) then
        lift (Raise (Exn ValueError
                       ("Missing schema for parameter " +:+ dq +:+ name +:+ dq)))
      else
        print_line (wrapper_fill 4 name);;
        attribute_line schema "description" description_text;;
        attribute_line schema "type" type_text;;
        attribute_line schema "enum" enum_text;;
        attribute_line schema "default" default_text;;
        print_line EmptyString
  end.

(** [[self.print_param(name, parameters.get(name)) for name in names]]. *)
Fixpoint print_params (parameters : gmap string (gmap string pyval))
  (names : list string) : M S unit :=
  match names with
  | [] => mret tt
  | name :: names' =>
      print_param name (parameters !! name);;
      print_params parameters names'
  end.

(** One section of the help: nothing for an empty set, else the names
    sorted, the heading and the parameters. *)
Definition print_section (heading : string)
  (parameters : gmap string (gmap string pyval)) (names : gset string)
  : M S unit :=
  if bool_decide (names = ∅) then mret tt
  else
    sorted_names ← lift (_sort_parameters parameters (set_order names));
    print_line heading;;
    print_params parameters sorted_names.

(** The body of the [try] of [print_help]. *)
Definition help_body (ref_or_id : string) : M S unit :=
  action ← call (EvGetAction ref_or_id) (get_resource_by_ref_or_id ref_or_id);
  match action with
  | None =>
      lift (Raise (Exn AttributeError
                     "'NoneType' object has no attribute 'runner_type'"))
  | Some action =>
      runner ← call (EvGetRunner (action_runner_type action))
                    (runner_get_by_name (action_runner_type action));
      match runner with
      | None =>
          lift (Raise (Exn AttributeError
                         "'NoneType' object has no attribute 'runner_parameters'"))
      | Some runner =>
          let '(parameters, required, optional, _) :=
            _get_params_types runner action in
          print_line EmptyString;;
          description ←
            lift (match action_description action with
                  | None =>
                      Raise (Exn AttributeError
                               "'Action' object has no attribute 'description'")
                  | Some v => description_text v
                  end);
          print_line (textwrap_fill description);;
          print_line EmptyString;;
          print_section "Required Parameters:" parameters required;;
          print_section "Optional Parameters:" parameters optional
      end
  end.

(** The two [except] clauses of [print_help]. *)
Definition help_handler (ref_or_id : string) (e : exn) : M S unit :=
  if bool_decide (exn_cls e = ResourceNotFoundError) then
    print_line ("Action " +:+ dq +:+ ref_or_id +:+ dq +:+ " is not found.")
  else if is_Exception e then
    print_line ("ERROR: Unable to print help for action " +:+ dq +:+ ref_or_id
                +:+ dq +:+ ". " +:+ exn_str e)
  else lift (Raise e).

(** [print_help]. *)
Definition print_help (args : Args) : M S bool :=
  if args_help args then
    match args_ref_or_id args with
    | None | Some EmptyString => emit (EvStdout parser_usage);; mret true
    | Some ref_or_id =>
        (fun w =>
           match help_body ref_or_id w with
           | (Raise e, w') => help_handler ref_or_id e w'
           | outcome => outcome
           end);;
        mret true
    end
  else mret false.

(** [run_and_print]. *)
Definition run_and_print (fuel : nat) (fs : FileSystem) (args : Args)
  : M S unit :=
  helped ← print_help args;
  if helped : bool then mret tt
  else
    instance ← run fuel fs args;
    emit (EvStdout (render_execution instance (args_json args)));;
    if args_async args then
      id ← lift (getattr "id" (exec_id instance));
      emit (EvStdout
              (render_text ("To get the results, execute: " +:+ newline +:+
                            "    $ st2 execution get " +:+ id)))
    else mret tt.

End Help.

(** An event that neither submits an execution nor fetches one. *)
Definition submits_nothing (ev : event) : Prop :=
  is_create ev = false /\ is_refetch ev = false.

(** A console that indents and never breaks a line, and help data that
    gives every action the same description. *)
Definition plain_console : Console :=
  {| wrapper_fill := fun n text => String.concat EmptyString (replicate n " ") +:+ text;
     textwrap_fill := fun text => text;
     parser_usage := "usage: st2 action execute [-h] [ref-or-id] [parameters ...]";
     render_execution := fun instance _ => default "?" (exec_id instance);
     render_text := fun text => text |}.

Definition plain_help_data : HelpData :=
  {| action_description := fun _ => Some (PStr "Does nothing.");
     set_order := elements;
     set_order_perm := fun X => reflexivity (elements X) |}.

(** The command line [core.noop -h]. *)
Definition help_args : Args :=
  {| args_ref_or_id := Some "core.noop";
     args_parameters := [];
     args_async := true;
     args_json := false;
     args_help := true |}.

(** A schema entry with a type and a default of zero. *)
Definition retries_schema : gmap string pyval :=
  {[ "type" := PStr "integer"; "default" := PInt 0 ]}.

(** ** [ActionExecutionListCommand] *)

Definition display_attributes : list string :=
  ["id"; "ref"; "context.user"; "status"; "start_timestamp"].

(** The parsed command line of [execution list]. *)
Record ListArgs : Type := {
  list_action_name : option string;
  list_action_id : option string;
  list_last : Z;
  list_attr : list string;
  list_width : list Z;
  list_json : bool
}.

(** [self.manager.query(limit=..., **kwargs)] over a service state [S]. *)
Class QueryClient (S : Type) : Type := {
  execution_query :
    Z -> gmap string pyval -> S -> (exn + list ActionExecution) * S
}.

(** The call of [print_output] a command ends with: the formatter and what
    it is given. *)
Inductive print_request : Type :=
  | PropertyValueTable (instance : ActionExecution) (attributes : list string)
      (json : bool)
  | MultiColumnTable (instances : list ActionExecution) (attributes : list string)
      (widths : list Z) (json : bool).

(** An option that is there and is not the empty string. *)
Definition given (o : option string) : bool :=
  match o with
  | Some (String _ _) => true
  | _ => false
  end.

(** The keyword arguments [run] passes on: [kwargs] with the filter. *)
Definition list_filters (args : ListArgs) (kwargs : gmap string pyval)
  : gmap string pyval :=
  if given (list_action_name args) then
    <["action_name" := PStr (default EmptyString (list_action_name args))]> kwargs
  else if given (list_action_id args) then
    <["action_id" := PStr (default EmptyString (list_action_id args))]> kwargs
  else kwargs.

Section ListCommand.

Context {S : Type} `{QueryClient S}.

(** [ActionExecutionListCommand.run]. A [limit] among the keyword
    arguments clashes with the one [run] passes itself. *)
Definition list_run (args : ListArgs) (kwargs : gmap string pyval) (s : S)
  : (exn + list ActionExecution) * S :=
  let kwargs := list_filters args kwargs in
  if bool_decide (is_Some (kwargs !! "limit")) then
    (inl (Exn TypeError "query() got multiple values for keyword argument 'limit'"),
     s)
  else execution_query (list_last args) kwargs s.

(** The attributes shown for a single instance. *)
Definition single_attributes (attr : list string) : list string :=
  let requested : gset string := list_to_set attr in
  let shown : gset string := list_to_set display_attributes in
  if bool_decide (requested ∖ shown ≠ ∅) || bool_decide (shown ∖ requested ≠ ∅)
  then attr
  else ["all"].

(** [ActionExecutionListCommand.run_and_print], up to the call of
    [print_output]. *)
Definition list_run_and_print (args : ListArgs) (kwargs : gmap string pyval)
  (s : S) : (exn + print_request) * S :=
  match list_run args kwargs s with
  | (inl e, s') => (inl e, s')
  | (inr instances, s') =>
      (inr (match instances with
            | [instance] =>
                PropertyValueTable instance (single_attributes (list_attr args))
                                   (list_json args)
            | _ =>
                MultiColumnTable instances (list_attr args) (list_width args)
                                 (list_json args)
            end), s')
  end.

End ListCommand.

(** A service that lists the executions it holds, newest first, up to the
    limit ([0] lists them all). *)
#[global] Instance listing_client : QueryClient (list ActionExecution) := {|
  execution_query := fun limit _ held =>
    (inr (if bool_decide (limit = 0%Z) then held else take (Z.to_nat limit) held),
     held)
|}.

Definition default_list_args : ListArgs :=
  {| list_action_name := None;
     list_action_id := None;
     list_last := 50%Z;
     list_attr := ["status"; "id"; "ref"; "start_timestamp"; "context.user"; "id"];
     list_width := [28%Z];
     list_json := false |}.
(** * Properties *)

Section SchemaMerger.

Variables (runner : RunnerType) (action : Action).

Let parameters := (_get_params_types runner action).1.1.1.
Let required := (_get_params_types runner action).1.1.2.
Let optional := (_get_params_types runner action).1.2.
Let immutable := (_get_params_types runner action).2.

Lemma parameters_merged : parameters = merged_parameters runner action.
Proof. reflexivity. Qed.

Lemma merged_lookup_action n meta :
  action_parameters action !! n = Some meta -> parameters !! n = Some meta.
Proof. intros H. apply lookup_union_Some_l, H. Qed.

Lemma merged_lookup_runner n :
  action_parameters action !! n = None ->
  parameters !! n = runner_parameters runner !! n.
Proof. intros H. unfold parameters; simpl. by rewrite lookup_union_r. Qed.

Lemma dom_parameters :
  dom parameters = dom (action_parameters action) ∪ dom (runner_parameters runner).
Proof. unfold parameters; simpl. by rewrite dom_union_L. Qed.

Lemma truthy_is_immutable rm am :
  truthy (is_immutable rm am) = true <->
  (exists v, rm !! "immutable" = Some v /\ truthy v = true) \/
  (exists v, am !! "immutable" = Some v /\ truthy v = true).
Proof.
  unfold is_immutable, dict_get.
  destruct (rm !! "immutable") as [rv|] eqn:Hr; simpl.
  - destruct (truthy rv) eqn:Hrv; simpl.
    + split; [intros _; left; eauto | done].
    + destruct (am !! "immutable") as [av|] eqn:Ha; simpl.
      * split; [intros; right; eauto |].
        intros [(v & Hv & Ht) | (v & Hv & Ht)]; congruence.
      * split; [done |].
        intros [(v & Hv & Ht) | (v & Hv & Ht)]; congruence.
  - destruct (am !! "immutable") as [av|] eqn:Ha; simpl.
    + split; [intros; right; eauto |].
      intros [(v & Hv & Ht) | (v & Hv & Ht)]; congruence.
    + split; [done |].
      intros [(v & Hv & Ht) | (v & Hv & Ht)]; congruence.
Qed.

Lemma elem_of_immutable n :
  n ∈ immutable <->
  declares_immutable (runner_parameters runner) n \/
  declares_immutable (action_parameters action) n.
Proof.
  unfold immutable; simpl. rewrite elem_of_filter, truthy_is_immutable.
  rewrite dom_union_L, elem_of_union, !elem_of_dom.
  unfold declares_immutable, dict_get. split.
  - intros [[(v & Hv & Ht) | (v & Hv & Ht)] _].
    + left. destruct (runner_parameters runner !! n) as [m|] eqn:Hm;
        simpl in Hv; [eauto | by rewrite lookup_empty in Hv].
    + right. destruct (action_parameters action !! n) as [m|] eqn:Hm;
        simpl in Hv; [eauto | by rewrite lookup_empty in Hv].
  - intros [(m & v & Hm & Hv & Ht) | (m & v & Hm & Hv & Ht)]; rewrite Hm; simpl.
    + split; [left; eauto | right; eauto].
    + split; [right; eauto | left; eauto].
Qed.

Lemma immutable_subseteq_dom : immutable ⊆ dom parameters.
Proof. unfold immutable; simpl. intros n Hn.
  apply elem_of_filter in Hn. tauto. Qed.

Lemma required_spec n :
  n ∈ required <-> n ∈ listed_required runner action /\ (n ∉ immutable).
Proof.
  unfold required, immutable; simpl.
  rewrite elem_of_difference, elem_of_list_to_set. reflexivity.
Qed.

Lemma optional_spec n :
  n ∈ optional <-> n ∈ dom parameters /\ (n ∉ required) /\ (n ∉ immutable).
Proof.
  unfold optional, required, immutable, parameters; simpl.
  rewrite !elem_of_difference. tauto.
Qed.

Lemma partitions_disjoint :
  required ## optional /\ required ## immutable /\ optional ## immutable.
Proof.
  repeat split; apply elem_of_disjoint; intros n;
    rewrite ?optional_spec, ?required_spec; tauto.
Qed.

Lemma partitions_union :
  required ∪ optional ∪ immutable =
  dom parameters ∪ list_to_set (listed_required runner action).
Proof.
  apply set_eq. intros n.
  rewrite !elem_of_union, optional_spec, !required_spec, elem_of_list_to_set.
  pose proof (immutable_subseteq_dom n) as Hsub.
  destruct (decide (n ∈ immutable)), (decide (n ∈ dom parameters)),
    (decide (n ∈ listed_required runner action)); tauto.
Qed.

Lemma partitions_cover_iff :
  required ∪ optional ∪ immutable = dom parameters <->
  (forall n, n ∈ listed_required runner action -> n ∈ dom parameters).
Proof.
  rewrite partitions_union. split.
  - intros H n Hn. rewrite <- H. apply elem_of_union_r.
    by apply elem_of_list_to_set.
  - intros H. apply set_eq. intros n.
    rewrite elem_of_union, elem_of_list_to_set. specialize (H n). tauto.
Qed.

End SchemaMerger.

(** ** Schema merger: the three partitions *)

(** C1, as the code has it. [_get_params_types] returns three sets that
    are pairwise disjoint; a name is immutable exactly when the runner entry
    or the action entry declares it immutable, and such a name is neither
    required nor optional. The union of the three sets is the key set of the
    merged table together with the names listed in [required_parameters];
    it is exactly the merged key set if and only if every listed name is a
    key of the merged table. *)
Theorem C1_partitions (runner : RunnerType) (action : Action) :
  let '(parameters, required, optional, immutable) :=
    _get_params_types runner action in
  parameters = action_parameters action ∪ runner_parameters runner /\
  required ## optional /\ required ## immutable /\ optional ## immutable /\
  required ∪ optional ∪ immutable =
    dom parameters ∪ list_to_set (listed_required runner action) /\
  (required ∪ optional ∪ immutable = dom parameters <->
   forall n, n ∈ listed_required runner action -> n ∈ dom parameters) /\
  (forall n, n ∈ immutable <->
             declares_immutable (runner_parameters runner) n \/
             declares_immutable (action_parameters action) n) /\
  (forall n, declares_immutable (runner_parameters runner) n \/
             declares_immutable (action_parameters action) n ->
             (n ∉ required) /\ (n ∉ optional)).
Proof.
  pose proof (partitions_disjoint runner action) as (Hro & Hri & Hoi).
  pose proof (partitions_union runner action) as Hun.
  pose proof (partitions_cover_iff runner action) as Hcov.
  pose proof (elem_of_immutable runner action) as Him.
  destruct (_get_params_types runner action) as [[[parameters required] optional] immutable] eqn:E.
  assert (parameters = action_parameters action ∪ runner_parameters runner) as Hp.
  { unfold _get_params_types in E. by inversion E. }
  simpl in *. split_and!; try done.
  intros n Hn%Him. split; intros Hn'.
  - by apply (proj1 (elem_of_disjoint _ _) Hri n).
  - by apply (proj1 (elem_of_disjoint _ _) Hoi n).
Qed.

(** C1 as stated fails: with a required name that no schema declares, the
    union of the three sets is not the merged key set. *)
Lemma C1_union_counterexample :
  let '(parameters, required, optional, immutable) :=
    _get_params_types ghost_runner bare_action in
  required ∪ optional ∪ immutable ≠ dom parameters.
Proof.
  pose proof (partitions_cover_iff ghost_runner bare_action) as Hcov.
  destruct (_get_params_types ghost_runner bare_action)
    as [[[parameters required] optional] immutable] eqn:E.
  assert (parameters = ∅) as ->.
  { unfold _get_params_types in E. inversion E. apply map_eq. intros i.
    rewrite lookup_union. simpl. by rewrite !lookup_empty. }
  simpl in Hcov. intros Heq. destruct Hcov as [Hc _].
  specialize (Hc Heq "ghost"). rewrite dom_empty_L in Hc.
  apply (not_elem_of_empty (C:=gset string) "ghost"), Hc.
  vm_compute. by left.
Qed.

(** ** Value transformer *)

Section TransformerProps.

Context `{Library}.

Lemma transformer_boolean :
  transformer !! "boolean" =
  Some (fun x => Py2.literal_eval (Str.capitalize x)).
Proof. reflexivity. Qed.

Lemma transformer_integer : transformer !! "integer" = Some Py2.int.
Proof. reflexivity. Qed.

Lemma transformer_string : transformer !! "string" = Some (fun x => Ok (PStr x)).
Proof. reflexivity. Qed.

(** On a schema whose declared type can be hashed, the lookup of
    [normalize] finds the conversion of the known type, or nothing. *)
Lemma schema_transformer_known schema name :
  (forall ty, declared_type schema name = Some ty -> hashable ty = true) ->
  schema_transformer schema name = Ok (known_type schema name).
Proof.
  unfold schema_transformer, known_type, declared_type, known_transformer.
  destruct (schema !! name) as [param|]; simpl; [|done].
  destruct (param !! "type") as [ty|]; simpl; [|done].
  intros Hh. by rewrite (Hh ty eq_refl).
Qed.

(** A list or a dict as [type] stops [normalize] with a [TypeError]. *)
Lemma schema_transformer_unhashable schema name ty :
  declared_type schema name = Some ty -> hashable ty = false ->
  schema_transformer schema name =
  Raise (Exn TypeError ("unhashable type: '" +:+ type_name ty +:+ "'")).
Proof.
  unfold schema_transformer, declared_type, known_transformer.
  destruct (schema !! name) as [param|]; simpl; [|done].
  intros -> ->. done.
Qed.

(** The lookup of [normalize] on any schema: the error of hashing when the
    declared type is a list or a dict, else the conversion of the known
    type, or nothing. *)
Lemma schema_transformer_cases schema name :
  schema_transformer schema name =
  match unhashable_type schema name with
  | Some ty => Raise (unhashable_error ty)
  | None => Ok (known_type schema name)
  end.
Proof.
  unfold schema_transformer, unhashable_type, known_type, declared_type,
    known_transformer, unhashable_error.
  destruct (schema !! name) as [param|]; simpl; [|done].
  destruct (param !! "type") as [ty|]; simpl; [|done].
  by destruct (hashable ty).
Qed.

End TransformerProps.


(** C8. [normalize] takes the conversion of the type the runner schema
    declares for the name when that type is known; otherwise the conversion
    of the type the action schema declares when that one is known; and when
    neither schema declares a known type it returns the text as it came.
    This holds as long as no schema it looks at declares a list or a dict
    as [type]: on such a type of the runner, or of the action when the
    runner declares no known type, the lookup in the table raises a
    [TypeError]. The action schema is not looked at when the runner's type
    is known. *)
Theorem C8_normalize_lookup_order `{Library} (runner : RunnerType)
  (action : Action) (name value : string) :
  normalize runner action name value =
  match unhashable_type (runner_parameters runner) name with
  | Some ty => Raise (unhashable_error ty)
  | None =>
      match known_type (runner_parameters runner) name with
      | Some f => f value
      | None =>
          match unhashable_type (action_parameters action) name with
          | Some ty => Raise (unhashable_error ty)
          | None =>
              match known_type (action_parameters action) name with
              | Some f => f value
              | None => Ok (PStr value)
              end
          end
      end
  end.
Proof.
  unfold normalize.
  rewrite (schema_transformer_cases (runner_parameters runner) name).
  destruct (unhashable_type (runner_parameters runner) name); [done|]. simpl.
  destruct (known_type (runner_parameters runner) name); [done|].
  rewrite (schema_transformer_cases (action_parameters action) name).
  destruct (unhashable_type (action_parameters action) name); [done|]. simpl.
  by destruct (known_type (action_parameters action) name).
Qed.

(** C8 as stated fails: the runner declares the type of [port] as a list
    of type names, so neither schema declares a known type for it, and the
    value is not returned as it came: the lookup raises. *)
Lemma C8_unhashable_type_counterexample :
  @known_type refusing_library (runner_parameters union_runner) "port" = None /\
  @known_type refusing_library (action_parameters bare_action) "port" = None /\
  @normalize refusing_library union_runner bare_action "port" "80" =
    Raise (Exn TypeError "unhashable type: 'list'") /\
  @normalize refusing_library union_runner bare_action "port" "80" ≠
    Ok (PStr "80").
Proof.
  split; [vm_compute; reflexivity |]. split; [vm_compute; reflexivity |].
  assert (@normalize refusing_library union_runner bare_action "port" "80" =
          Raise (Exn TypeError "unhashable type: 'list'")) as Hn
    by (vm_compute; reflexivity).
  split; [exact Hn |]. rewrite Hn. discriminate.
Qed.

(** Where every [type] the two schemas declare for the name is a scalar,
    the lookup order is the one of the three cases alone. *)
Corollary normalize_scalar_types `{Library} (runner : RunnerType)
  (action : Action) (name value : string) :
  (forall ty,
     declared_type (runner_parameters runner) name = Some ty \/
     declared_type (action_parameters action) name = Some ty ->
     hashable ty = true) ->
  normalize runner action name value =
  match known_type (runner_parameters runner) name with
  | Some f => f value
  | None =>
      match known_type (action_parameters action) name with
      | Some f => f value
      | None => Ok (PStr value)
      end
  end.
Proof.
  intros Hh. unfold normalize.
  rewrite (schema_transformer_known (runner_parameters runner))
    by (intros ty Hty; apply Hh; by left).
  simpl. destruct (known_type (runner_parameters runner) name); [done|].
  rewrite (schema_transformer_known (action_parameters action))
    by (intros ty Hty; apply Hh; by right).
  simpl. by destruct (known_type (action_parameters action) name).
Qed.

(** The three cases of C8 on one pair of schemas: the runner's type wins
    over the action's, the action's type is used when the runner has none,
    and an undeclared name passes through. *)
Example normalize_three_cases `{Library} :
  normalize flag_runner typed_action "x" "12" = Ok (PInt 12) /\
  normalize flag_runner typed_action "y" "a, b" = Ok (PList [PStr "a"; PStr "b"]) /\
  normalize flag_runner typed_action "z" "12" = Ok (PStr "12").
Proof. repeat split; reflexivity. Qed.

(** A list as [type] in the action schema stops [normalize] only when the
    runner declares no known type for the name. *)
Example normalize_action_list_type `{Library} :
  let action :=
    {| action_pack := "core"; action_name := "typed";
       action_runner_type := "run-local";
       action_parameters :=
         {[ "x" := {[ "type" := PList [PStr "string"] ]};
            "y" := {[ "type" := PList [PStr "string"] ]} ]};
       action_required_parameters := None |} in
  normalize flag_runner action "x" "12" = Ok (PInt 12) /\
  normalize flag_runner action "y" "12" =
    Raise (Exn TypeError "unhashable type: 'list'").
Proof. split; reflexivity. Qed.

(** *** What the boolean conversion accepts and refuses *)

Lemma lower_idem c : Str.lower (Str.lower c) = Str.lower c.
Proof. by destruct c as [[] [] [] [] [] [] [] []]. Qed.

Lemma upper_lower c : Str.upper (Str.lower c) = Str.upper c.
Proof. by destruct c as [[] [] [] [] [] [] [] []]. Qed.

Lemma capitalize_lowercase x :
  Str.capitalize (Str.lowercase x) = Str.capitalize x.
Proof.
  destruct x as [|c x]; [done|]. simpl. rewrite upper_lower. f_equal.
  induction x as [|d x IH]; [done|]. simpl. by rewrite lower_idem, IH.
Qed.

(** Every spelling of [true] and of [false], whatever the case of its
    letters, is converted to the boolean. *)
Lemma boolean_spellings x :
  (Str.lowercase x = "true" ->
   Py2.literal_eval (Str.capitalize x) = Ok (PBool true)) /\
  (Str.lowercase x = "false" ->
   Py2.literal_eval (Str.capitalize x) = Ok (PBool false)).
Proof.
  split; intros Hx; by rewrite <- capitalize_lowercase, Hx.
Qed.

(** A text that reads as a name other than [None], [True] and [False]
    once capitalized is refused, and the handler of the loop turns the
    refusal into the message that names [true] and [false]. *)
Lemma boolean_name_refused x :
  Py2.is_identifier (Str.capitalize x) = true ->
  Str.capitalize x ∉ Py2.keywords ->
  Str.capitalize x ≠ "None" -> Str.capitalize x ≠ "True" ->
  Str.capitalize x ≠ "False" ->
  on_exception (Py2.literal_eval (Str.capitalize x)) =
  Raise (Exn ValueError boolean_message).
Proof.
  intros Hid Hkw Hn Ht Hf. unfold Py2.literal_eval. rewrite Hid.
  by rewrite !bool_decide_eq_false_2.
Qed.

(** C2 at the failing inputs. A parameter declared [boolean] takes the text
    [1] as the integer 1 and the text [none] as [None], without an error;
    [maybe] is refused with the message that names [true] and [false]. *)
Theorem C2_boolean_accepts_other_literals `{Library} (fs : FileSystem)
  (params : gmap string pyval) :
  keyed_token fs flag_runner bare_action "flag=1" params =
    Ok (<["flag" := PInt 1]> params) /\
  keyed_token fs flag_runner bare_action "flag=none" params =
    Ok (<["flag" := PNone]> params) /\
  keyed_token fs flag_runner bare_action "flag=maybe" params =
    Raise (Exn ValueError
             "Invalid value for boolean parameter. Valid values are: true, false").
Proof. repeat split; reflexivity. Qed.

(** ** Argument parser *)

Lemma has_char_app c s t :
  Str.has_char c (s +:+ t) = Str.has_char c s || Str.has_char c t.
Proof.
  induction s as [|a s IH]; [done|].
  change (String a s +:+ t) with (String a (s +:+ t)). simpl.
  rewrite IH. by destruct (Str.eqc a c).
Qed.

Lemma split1_cut c k v :
  Str.has_char c k = false -> Str.split1 c (k +:+ String c v) = [k; v].
Proof.
  induction k as [|a k IH]; simpl; intros Hk.
  - change (EmptyString +:+ String c v) with (String c v). simpl.
    unfold Str.eqc. by rewrite bool_decide_eq_true_2.
  - change (String a k +:+ String c v) with (String a (k +:+ String c v)).
    simpl. apply orb_false_elim in Hk as [-> Hk]. by rewrite IH.
Qed.

Lemma startswith_at k : Str.startswith (String "@" k) "@" = true.
Proof. unfold Str.startswith. simpl. by destruct k. Qed.

Lemma has_char_file_token k path : Str.has_char "=" (file_token k path) = true.
Proof.
  unfold file_token. simpl. rewrite has_char_app. simpl.
  by rewrite orb_true_r.
Qed.

Lemma read_file_regular fs v content :
  regular_file fs v content -> read_file fs (resolved_path fs v) = Ok content.
Proof. intros (He & Hf & Hr). unfold read_file. by rewrite He, Hf, Hr. Qed.

Lemma on_exception_Ok {A} (r : result A) (a : A) :
  on_exception r = Ok a -> r = Ok a.
Proof.
  destruct r as [a'|e| |]; simpl; try done.
  by destruct (is_Exception e && Str.contains "malformed string" (exn_str e)).
Qed.

(** Settles a test [k in d] once the lookup is known. *)
Ltac decide_present :=
  match goal with
  | |- context [@bool_decide (is_Some ?o) ?d] =>
      first [ rewrite (@bool_decide_eq_true_2 (is_Some o) d) by (by eexists)
            | rewrite (@bool_decide_eq_false_2 (is_Some o) d) by (by intros [? ?]) ]
  end.

Section ParserProps.

Context `{Library} (fs : FileSystem) (runner : RunnerType) (action : Action).

Local Abbreviation keyed := (keyed_token fs runner action).
Local Abbreviation scan := (scan_parameters fs runner action).

(** A file token whose path is a regular file stores the bytes under
    [file_content] and the base name under [_file_name], whatever its
    own key is. *)
Lemma keyed_file_token k path content params :
  Str.has_char "=" k = false -> regular_file fs path content ->
  keyed (file_token k path) params =
  Ok (<["file_content" := PStr content]>
        (<["_file_name" := PStr (posixpath.basename (resolved_path fs path))]>
           params)).
Proof.
  intros Hk Hreg. unfold keyed_token, file_token.
  change (String "@" (k +:+ String "=" path))
    with (String "@" k +:+ String "=" path).
  rewrite split1_cut by (simpl; by rewrite Hk).
  cbv beta iota. rewrite startswith_at. simpl.
  by rewrite (read_file_regular _ _ _ Hreg).
Qed.

Lemma token_keys_file_token k path :
  Str.has_char "=" k = false ->
  token_keys (file_token k path) = ["_file_name"; "file_content"].
Proof.
  intros Hk. unfold token_keys, file_token.
  change (String "@" (k +:+ String "=" path))
    with (String "@" k +:+ String "=" path).
  rewrite split1_cut by (simpl; by rewrite Hk).
  by rewrite startswith_at.
Qed.

(** A token only touches its own keys. *)
Lemma keyed_token_frame arg params params' q :
  keyed arg params = Ok params' -> q ∉ token_keys arg ->
  params' !! q = params !! q.
Proof.
  unfold keyed_token, token_keys.
  destruct (Str.split1 "=" arg) as [|k [|v [|? ?]]]; try done.
  intros Hr%on_exception_Ok. destruct (Str.startswith k "@").
  - destruct (read_file fs (resolved_path fs v)) as [c| | |]; simpl in Hr; try done.
    inversion Hr; subst. intros Hq.
    assert (q ≠ "file_content") by (intros ->; apply Hq; set_solver).
    assert (q ≠ "_file_name") by (intros ->; apply Hq; set_solver).
    by rewrite !lookup_insert_ne.
  - destruct (normalize runner action k v) as [x| | |]; simpl in Hr; try done.
    inversion Hr; subst. intros Hq.
    assert (q ≠ k) by (intros ->; apply Hq; set_solver).
    by rewrite lookup_insert_ne.
Qed.


(** Keyed tokens are taken one after the other. *)
Lemma scan_app pre rest params :
  Forall (fun arg => Str.has_char "=" arg = true) pre ->
  scan (pre ++ rest) params = scan pre params ≫= scan rest.
Proof.
  intros Hpre. revert params.
  induction Hpre as [|arg pre Harg Hpre IH]; intros params; [done|].
  simpl. rewrite Harg.
  destruct (keyed arg params) as [p1| | |]; simpl; [apply IH | done..].
Qed.

Lemma scan_cons_keyed arg rest params :
  Str.has_char "=" arg = true ->
  scan (arg :: rest) params = keyed arg params ≫= scan rest.
Proof. intros Harg. simpl. by rewrite Harg. Qed.


(** The post-pass when a file was staged. *)
Lemma file_defaults_staged params content staged :
  params !! "file_content" = Some content ->
  params !! "_file_name" = Some staged ->
  file_defaults params =
  Ok (delete "_file_name"
        (<["file_name" := default staged (params !! "file_name")]>
           (<["method" := default (PStr "POST") (params !! "method")]> params))).
Proof.
  intros Hc Hs. unfold file_defaults.
  rewrite bool_decide_eq_true_2 by (by rewrite Hc).
  destruct (params !! "method") as [m|] eqn:Hm; decide_present; simpl.
  - rewrite (insert_id params "method" m Hm).
    destruct (params !! "file_name") as [n|] eqn:Hn; decide_present; simpl.
    + rewrite (insert_id params "file_name" n Hn).
      unfold dict_del. by rewrite Hs.
    + unfold dict_item. rewrite Hs. simpl.
      unfold dict_del. by rewrite lookup_insert_ne, Hs.
  - rewrite lookup_insert_ne by done.
    destruct (params !! "file_name") as [n|] eqn:Hn; decide_present; simpl.
    + rewrite (insert_id (<["method":=PStr "POST"]> params) "file_name" n)
        by (by rewrite lookup_insert_ne).
      unfold dict_del. by rewrite lookup_insert_ne, Hs.
    + unfold dict_item. rewrite lookup_insert_ne, Hs by done. simpl.
      unfold dict_del. by rewrite !lookup_insert_ne, Hs.
Qed.

(** After a run of file tokens only the last file is staged. *)
Lemma scan_file_tokens earlier k path content params :
  Forall (fun f => Str.has_char "=" f.1 = false /\
                   exists c, regular_file fs f.2 c) earlier ->
  Str.has_char "=" k = false -> regular_file fs path content ->
  exists m,
    scan (file_tokens earlier ++ [file_token k path]) params = Ok m /\
    m !! "file_content" = Some (PStr content) /\
    m !! "_file_name" =
      Some (PStr (posixpath.basename (resolved_path fs path))) /\
    forall q, q ≠ "file_content" -> q ≠ "_file_name" -> m !! q = params !! q.
Proof.
  intros Hearlier Hk Hreg. revert params.
  induction Hearlier as [|[k' path'] earlier [Hk' [c' Hreg']] _ IH]; intros params.
  - change (file_tokens [] ++ [file_token k path]) with [file_token k path].
    rewrite scan_cons_keyed by apply has_char_file_token.
    rewrite (keyed_file_token _ _ _ _ Hk Hreg). simpl.
    eexists. split; [done|]. split_and!.
    + by rewrite lookup_insert_eq.
    + by rewrite lookup_insert_ne, lookup_insert_eq.
    + intros q ? ?. by rewrite !lookup_insert_ne.
  - change (file_tokens ((k', path') :: earlier) ++ [file_token k path])
      with (file_token k' path' :: (file_tokens earlier ++ [file_token k path])).
    rewrite scan_cons_keyed by apply has_char_file_token.
    simpl in Hk', Hreg'. rewrite (keyed_file_token _ _ _ _ Hk' Hreg').
    destruct (IH (<["file_content":=PStr c']>
         (<["_file_name":=PStr (posixpath.basename (resolved_path fs path'))]>
            params))) as (m & Hm & Hc & Hn & Hq).
    exists m. split_and!; try done.
    intros q ? ?. by rewrite Hq, !lookup_insert_ne.
Qed.

Lemma file_defaults_no_file params :
  params !! "file_content" = None -> file_defaults params = Ok params.
Proof.
  intros Hc. unfold file_defaults.
  by rewrite bool_decide_eq_false_2 by (rewrite Hc; by intros [? ?]).
Qed.

End ParserProps.



(** The example of C3 on a runner that types [x] as an integer and leaves
    [y] untyped. *)
Example scan_free_text `{Library} (fs : FileSystem) :
  resolve_parameters fs flag_runner bare_action ["x=1"; "y=2"; "free"; "text"] =
  Ok {[ "x" := PInt 1; "y" := PStr "2"; "cmd" := PStr "free text" ]}.
Proof. reflexivity. Qed.



(** The example of C6: the whole mapping for the single token
    [@file=./data.txt]. *)
Example single_file_token `{Library} :
  resolve_parameters one_file_fs flag_runner bare_action ["@file=./data.txt"] =
  Ok {[ "file_content" := PStr "a=1"; "file_name" := PStr "data.txt";
        "method" := PStr "POST" ]}.
Proof. reflexivity. Qed.

(** A supplied [file_name] and [method] are kept. *)
Example file_token_with_name `{Library} :
  resolve_parameters one_file_fs flag_runner bare_action
    ["method=PUT"; "@file=./data.txt"; "file_name=report.txt"] =
  Ok {[ "file_content" := PStr "a=1"; "file_name" := PStr "report.txt";
        "method" := PStr "PUT" ]}.
Proof. reflexivity. Qed.

(** C10, as the code has it. A token [@k=path] stores nothing under its own
    key [k]: the bytes go under [file_content] and the base name under the
    staging key, and every other key of the mapping is left as it was. When
    a line is a run of such tokens, each one overwrites what the one before
    staged, and the mapping that is submitted holds the last file only, under
    the keys [file_content], [file_name] and [method]: [k] is among its keys
    only when it is one of these three names. *)
Theorem C10_file_tokens_fixed_keys `{Library} (fs : FileSystem)
  (runner : RunnerType) (action : Action) (earlier : list (string * string))
  (k path content : string) :
  Forall (fun f => Str.has_char "=" f.1 = false /\
                   exists c, regular_file fs f.2 c) earlier ->
  Str.has_char "=" k = false ->
  regular_file fs path content ->
  (forall params,
     keyed_token fs runner action (file_token k path) params =
     Ok (<["file_content" := PStr content]>
           (<["_file_name" := PStr (posixpath.basename (resolved_path fs path))]>
              params))) /\
  resolve_parameters fs runner action (file_tokens earlier ++ [file_token k path]) =
  Ok {[ "file_content" := PStr content;
        "file_name" := PStr (posixpath.basename (resolved_path fs path));
        "method" := PStr "POST" ]}.
Proof.
  intros Hearlier Hk Hreg. split.
  - intros params. by apply keyed_file_token.
  - destruct (scan_file_tokens fs runner action earlier k path content ∅
                Hearlier Hk Hreg) as (m & Hm & Hc & Hn & Hq).
    unfold resolve_parameters. rewrite Hm. cbn [mbind result_bind].
    rewrite (file_defaults_staged _ _ _ Hc Hn). f_equal.
    rewrite !Hq, !lookup_empty by done. simpl.
    apply map_eq. intros i.
    destruct (decide (i = "_file_name")) as [->|]; [by simplify_map_eq|].
    destruct (decide (i = "file_name")) as [->|]; [by simplify_map_eq|].
    destruct (decide (i = "method")) as [->|]; [by simplify_map_eq|].
    destruct (decide (i = "file_content")) as [->|]; [by simplify_map_eq|].
    rewrite lookup_delete_ne, !lookup_insert_ne, Hq, !lookup_empty by done.
    by simplify_map_eq.
Qed.

Lemma C10_file_tokens_fixed_keys_witness :
  Forall (fun f => Str.has_char "=" f.1 = false /\
                   exists c, regular_file one_file_fs f.2 c)
         [("first", "data.txt")] /\
  Str.has_char "=" "second" = false /\
  regular_file one_file_fs "./data.txt" "a=1" /\
  (forall params,
     @keyed_token refusing_library one_file_fs flag_runner bare_action
       (file_token "second" "./data.txt") params =
     Ok (<["file_content" := PStr "a=1"]>
           (<["_file_name" :=
                PStr (posixpath.basename (resolved_path one_file_fs "./data.txt"))]>
              params))) /\
  @resolve_parameters refusing_library one_file_fs flag_runner bare_action
    (file_tokens [("first", "data.txt")] ++ [file_token "second" "./data.txt"]) =
  Ok {[ "file_content" := PStr "a=1";
        "file_name" :=
          PStr (posixpath.basename (resolved_path one_file_fs "./data.txt"));
        "method" := PStr "POST" ]}.
Proof.
  assert (Forall (fun f => Str.has_char "=" f.1 = false /\
                   exists c, regular_file one_file_fs f.2 c)
            [("first", "data.txt")]) as H1.
  { repeat constructor. exists "a=1". repeat split; reflexivity. }
  assert (Str.has_char "=" "second" = false) as H2 by reflexivity.
  assert (regular_file one_file_fs "./data.txt" "a=1") as H3
    by (repeat split; reflexivity).
  split; [exact H1 |]. split; [exact H2 |]. split; [exact H3 |].
  exact (@C10_file_tokens_fixed_keys refusing_library one_file_fs flag_runner
           bare_action [("first", "data.txt")] "second" "./data.txt" "a=1"
           H1 H2 H3).
Defined.

(** C10 as stated fails when the key after the [@] is itself one of the
    fixed names: [@file_content=./data.txt] yields a mapping that has the
    stripped key [file_content] among its keys. *)
Lemma C10_stripped_key_counterexample :
  exists m,
    @resolve_parameters refusing_library one_file_fs flag_runner bare_action
      [file_token "file_content" "./data.txt"] = Ok m /\
    is_Some (m !! "file_content").
Proof. eexists. split; [reflexivity |]. by eexists. Qed.

(** *** File errors *)

Lemma prefix_before_char q sub a b :
  Str.has_char q sub = false ->
  String.prefix sub (a +:+ String q b) = String.prefix sub a.
Proof.
  revert a. induction sub as [|c sub IH]; intros a Hq.
  - by destruct a.
  - simpl in Hq. apply orb_false_elim in Hq as [Hc Hq].
    destruct a as [|x a].
    + change (EmptyString +:+ String q b) with (String q b). simpl.
      destruct (ascii_dec c q) as [->|]; [|done].
      unfold Str.eqc in Hc. by rewrite bool_decide_eq_true_2 in Hc.
    + change (String x a +:+ String q b) with (String x (a +:+ String q b)).
      simpl. destruct (ascii_dec c x); [by apply IH | done].
Qed.

Lemma contains_around_char q sub a b :
  Str.has_char q sub = false -> sub ≠ EmptyString ->
  Str.contains sub (a +:+ String q b) = Str.contains sub a || Str.contains sub b.
Proof.
  intros Hq Hne. induction a as [|x a IH].
  - change (EmptyString +:+ String q b) with (String q b).
    change (Str.contains sub (String q b))
      with (String.prefix sub (String q b) || Str.contains sub b).
    pose proof (prefix_before_char q sub EmptyString b Hq) as Hp.
    change (EmptyString +:+ String q b) with (String q b) in Hp.
    rewrite Hp. by destruct sub.
  - change (String x a +:+ String q b) with (String x (a +:+ String q b)).
    change (Str.contains sub (String x (a +:+ String q b)))
      with (String.prefix sub (String x a +:+ String q b) ||
            Str.contains sub (a +:+ String q b)).
    rewrite prefix_before_char, IH by done.
    change (Str.contains sub (String x a))
      with (String.prefix sub (String x a) || Str.contains sub a).
    by rewrite orb_assoc.
Qed.

Section FileErrors.

Context `{Library} (fs : FileSystem) (runner : RunnerType) (action : Action).

(** A missing file and a path that is not a regular file are refused, each
    with its own message, as long as the resolved path does not contain
    the words the handler of the loop looks for. *)
Lemma file_errors_reported k path params :
  Str.has_char "=" k = false ->
  Str.contains "malformed string" (resolved_path fs path) = false ->
  (path_exists fs (resolved_path fs path) = false ->
   keyed_token fs runner action (file_token k path) params =
   Raise (Exn ValueError
            ("File " +:+ dq +:+ resolved_path fs path +:+ dq +:+ " doesn't exist"))) /\
  (path_exists fs (resolved_path fs path) = true ->
   path_isfile fs (resolved_path fs path) = false ->
   keyed_token fs runner action (file_token k path) params =
   Raise (Exn ValueError (dq +:+ resolved_path fs path +:+ dq +:+ " is not a file"))).
Proof.
  intros Hk Hwords.
  assert (Str.split1 "=" (file_token k path) = [String "@" k; path]) as Hsplit.
  { unfold file_token.
    change (String "@" (k +:+ String "=" path))
      with (String "@" k +:+ String "=" path).
    apply split1_cut. simpl. by rewrite Hk. }
  assert (forall a b : string,
            Str.contains "malformed string" a = false ->
            Str.contains "malformed string" b = false ->
            Str.contains "malformed string"
              (a +:+ dq +:+ resolved_path fs path +:+ dq +:+ b) = false) as Hmsg.
  { intros a b Ha Hb. unfold dq.
    change (String (ascii_of_nat 34) EmptyString +:+ resolved_path fs path +:+
            String (ascii_of_nat 34) EmptyString +:+ b)
      with (String (ascii_of_nat 34)
              (resolved_path fs path +:+ String (ascii_of_nat 34) b)).
    rewrite !contains_around_char by done. by rewrite Ha, Hwords, Hb. }
  split.
  - intros He. unfold keyed_token. rewrite Hsplit. cbv beta iota.
    rewrite startswith_at. unfold read_file. rewrite He.
    cbn [negb mbind result_bind on_exception is_Exception exn_cls exn_str andb].
    by rewrite (Hmsg "File " " doesn't exist").
  - intros He Hf. unfold keyed_token. rewrite Hsplit. cbv beta iota.
    rewrite startswith_at. unfold read_file. rewrite He, Hf.
    cbn [negb mbind result_bind on_exception is_Exception exn_cls exn_str andb].
    change (dq +:+ resolved_path fs path +:+ dq +:+ " is not a file")
      with (EmptyString +:+ dq +:+ resolved_path fs path +:+ dq +:+ " is not a file").
    by rewrite (Hmsg EmptyString " is not a file").
Qed.

End FileErrors.

(** C7 at the failing input. A missing file and a directory are refused
    with their own messages, but when the resolved path of the missing file
    contains the words [malformed string] the handler of the loop replaces
    the message by the one for boolean parameters. *)
Theorem C7_file_error_messages `{Library} (runner : RunnerType) (action : Action) :
  resolve_parameters one_file_fs runner action ["@f=missing.txt"] =
    Raise (Exn ValueError
             ("File " +:+ dq +:+ "/home/st2/missing.txt" +:+ dq +:+ " doesn't exist")) /\
  resolve_parameters one_file_fs runner action ["@f=conf.d"] =
    Raise (Exn ValueError (dq +:+ "/home/st2/conf.d" +:+ dq +:+ " is not a file")) /\
  resolve_parameters one_file_fs runner action ["@f=malformed string"] =
    Raise (Exn ValueError
             "Invalid value for boolean parameter. Valid values are: true, false").
Proof. repeat split; reflexivity. Qed.

(** ** Submission and polling *)

Section RunProps.

Context `{Library} {S : Type} `{Client S}.

Lemma bind_unfold {A B} (m : M S A) (k : A -> M S B) (w : world S) :
  (m ≫= k) w =
  match m w with
  | (Ok a, w') => k a w'
  | (Raise e, w') => (Raise e, w')
  | (Unmodelled, w') => (Unmodelled, w')
  | (OutOfFuel, w') => (OutOfFuel, w')
  end.
Proof. reflexivity. Qed.

Lemma bind_Ok_inv {A B} (m : M S A) (k : A -> M S B) w b w' :
  (m ≫= k) w = (Ok b, w') ->
  exists a w1, m w = (Ok a, w1) /\ k a w1 = (Ok b, w').
Proof.
  rewrite bind_unfold. destruct (m w) as [[a|e| |] w1]; try done. eauto.
Qed.

Lemma call_unfold {A} ev (f : S -> (exn + A) * S) (w : world S) :
  call ev f w =
  (of_sum (f (service w)).1, World (f (service w)).2 (trace w ++ [ev])).
Proof. unfold call. by destruct (f (service w)). Qed.

(** *** What a computation may emit *)

Lemma emits_only_ret P {A} (a : A) : emits_only P (mret a : M S A).
Proof. intros w. exists []. by rewrite app_nil_r. Qed.

Lemma emits_only_lift P {A} (r : result A) : emits_only P (lift r : M S A).
Proof. intros w. exists []. by rewrite app_nil_r. Qed.

Lemma emits_only_emit (P : event -> Prop) ev : P ev -> emits_only P (emit ev : M S unit).
Proof. intros Hev w. exists [ev]. by repeat constructor. Qed.

Lemma emits_only_call (P : event -> Prop) {A} ev (f : S -> (exn + A) * S) :
  P ev -> emits_only P (call ev f : M S A).
Proof.
  intros Hev w. exists [ev]. rewrite call_unfold. by repeat constructor.
Qed.

Lemma emits_only_bind P {A B} (m : M S A) (k : A -> M S B) :
  emits_only P m -> (forall a, emits_only P (k a)) -> emits_only P (m ≫= k).
Proof.
  intros Hm Hk w. rewrite bind_unfold.
  destruct (Hm w) as (evs & Htr & Hevs).
  destruct (m w) as [[a|e| |] w1]; simpl in *; eauto.
  destruct (Hk a w1) as (evs' & Htr' & Hevs').
  exists (evs ++ evs'). rewrite Htr', Htr, app_assoc. split; [done|].
  by apply Forall_app.
Qed.

(** *** The loop *)

(** The loop ends at once on any status but [scheduled] and [running]. *)
Lemma poll_stops fuel json execution status w :
  exec_status execution = Some status ->
  status ≠ ACTIONEXEC_STATUS_SCHEDULED ->
  status ≠ ACTIONEXEC_STATUS_RUNNING ->
  poll fuel json execution w = (Ok execution, w).
Proof.
  intros Hst Hs Hr.
  destruct fuel; simpl; rewrite bind_unfold, Hst; simpl;
    by rewrite !bool_decide_eq_false_2.
Qed.

(** One turn of the loop: sleep, print the dot unless [--json], fetch
    the execution again by its id and go on with what came back. *)
Lemma poll_turn fuel json execution id w :
  waiting execution -> exec_id execution = Some id ->
  poll (Datatypes.S fuel) json execution w =
  (call (EvGetById id) (execution_get_by_id id) ≫= poll fuel json)
    (World (service w)
           (trace w ++ EvSleep 1 :: (if json then [] else [EvStdout "."]))).
Proof.
  intros Hw Hid. simpl. rewrite bind_unfold.
  assert (exists status, exec_status execution = Some status /\
            bool_decide (status = ACTIONEXEC_STATUS_SCHEDULED) ||
            bool_decide (status = ACTIONEXEC_STATUS_RUNNING) = true)
    as (status & -> & Hactive).
  { destruct Hw as [-> | ->]; eexists; split; done. }
  simpl. rewrite Hactive. rewrite !bind_unfold. simpl. rewrite Hid.
  destruct json; simpl; rewrite ?bind_unfold; simpl;
    rewrite <- ?app_assoc; reflexivity.
Qed.

(** *** The asynchronous mode *)

Lemma run_async_emits fuel fs args :
  args_async args = true ->
  emits_only (fun ev => is_refetch ev = false) (run fuel fs args : M S _).
Proof.
  intros Ha. unfold run.
  destruct (args_ref_or_id args) as [[|c r]|]; try apply emits_only_lift.
  apply emits_only_bind; [by apply emits_only_call|].
  intros [action|]; [|apply emits_only_lift].
  apply emits_only_bind; [by apply emits_only_call|].
  intros [runner|]; [|apply emits_only_lift].
  apply emits_only_bind; [apply emits_only_lift|]. intros params.
  apply emits_only_bind; [by apply emits_only_call|]. intros e.
  rewrite Ha. apply emits_only_ret.
Qed.

Lemma run_async_fuel fuel fs args w :
  args_async args = true -> run fuel fs args w = run 0 fs args w.
Proof. intros Ha. unfold run. by rewrite Ha. Qed.

Lemma run_async_result fuel fs args w e w' :
  args_async args = true ->
  run fuel fs args w = (Ok e, w') ->
  exists submitted s,
    execution_create submitted s = (inr e, service w') /\
    last (trace w') = Some (EvCreate submitted).
Proof.
  intros Ha. unfold run. rewrite Ha.
  destruct (args_ref_or_id args) as [[|c r]|]; try done.
  intros (action & w1 & _ & Hrun)%bind_Ok_inv.
  destruct action as [action|]; [|done].
  apply bind_Ok_inv in Hrun as (runner & w2 & _ & Hrun).
  destruct runner as [runner|]; [|done].
  apply bind_Ok_inv in Hrun as (params & w3 & _ & Hrun).
  apply bind_Ok_inv in Hrun as (e' & w4 & Hcreate & Hret).
  simpl in Hret. inversion Hret; subst e' w4. clear Hret.
  rewrite call_unfold in Hcreate.
  match type of Hcreate with
  | context [execution_create ?x _] => exists x
  end.
  exists (service w3).
  destruct (execution_create _ (service w3)) as [[err|e'] s'] eqn:Hc;
    simpl in Hcreate; inversion Hcreate; subst. simpl.
  split; [done|]. by rewrite last_snoc.
Qed.

(** In the asynchronous mode, once the action and its runner type are found
    and the parameters resolve, [run] returns what [create] answers, with
    any status, right after the submission. *)
Lemma run_async_submits fuel fs args w ref_or_id action runner parameters
  s1 s2 s3 execution :
  args_async args = true ->
  args_ref_or_id args = Some ref_or_id -> ref_or_id ≠ EmptyString ->
  get_resource_by_ref_or_id ref_or_id (service w) = (inr (Some action), s1) ->
  runner_get_by_name (action_runner_type action) s1 = (inr (Some runner), s2) ->
  resolve_parameters fs runner action (args_parameters args) = Ok parameters ->
  execution_create (fresh_execution action parameters) s2 = (inr execution, s3) ->
  run fuel fs args w =
  (Ok execution,
   World s3 (trace w ++ [EvGetAction ref_or_id;
                         EvGetRunner (action_runner_type action);
                         EvCreate (fresh_execution action parameters)])).
Proof.
  intros Hasync Href Hne Ha Hr Hp Hc. unfold run. rewrite Href, Hasync.
  destruct ref_or_id as [|c r]; [done|].
  rewrite bind_unfold, call_unfold, Ha. simpl.
  rewrite bind_unfold, call_unfold. simpl. rewrite Hr. simpl.
  rewrite bind_unfold. unfold lift at 1. rewrite Hp.
  rewrite bind_unfold, call_unfold.
  unfold fresh_execution in *. simpl in Hc |- *. rewrite Hc. simpl.
  by rewrite <- !app_assoc.
Qed.

(** *** Failures before the submission *)

(** When the parameters do not resolve, [run] ends with that error after
    the two lookups: nothing is created. *)
Lemma run_resolution_fails fuel fs args w ref_or_id action runner s1 s2 e :
  args_ref_or_id args = Some ref_or_id -> ref_or_id ≠ EmptyString ->
  get_resource_by_ref_or_id ref_or_id (service w) = (inr (Some action), s1) ->
  runner_get_by_name (action_runner_type action) s1 = (inr (Some runner), s2) ->
  resolve_parameters fs runner action (args_parameters args) = Raise e ->
  run fuel fs args w =
  (Raise e, World s2 (trace w ++ [EvGetAction ref_or_id;
                                  EvGetRunner (action_runner_type action)])).
Proof.
  intros Href Hne Ha Hr Hp. unfold run. rewrite Href.
  destruct ref_or_id as [|c r]; [done|].
  rewrite bind_unfold, call_unfold, Ha. simpl.
  rewrite bind_unfold, call_unfold. simpl. rewrite Hr. simpl.
  rewrite bind_unfold. unfold lift at 1. rewrite Hp.
  by rewrite <- app_assoc.
Qed.

End RunProps.

(** *** Polling a scripted service *)

Lemma refetches_app tr tr' : refetches (tr ++ tr') = (refetches tr + refetches tr')%nat.
Proof. unfold refetches. by rewrite List.filter_app, length_app. Qed.

Section Scripted.

Context `{Library}.

(** With [queue] still waiting and [final] settled, the loop fetches once
    per element of [queue] and once more for [final], and returns [final]. *)
Lemma poll_scripted (queue : list ActionExecution) final rest :
  forall fuel json execution id s tr,
    waiting execution -> exec_id execution = Some id ->
    Forall (fun x => waiting x /\ is_Some (exec_id x)) queue ->
    (exists status, exec_status final = Some status /\
                    status ≠ ACTIONEXEC_STATUS_SCHEDULED /\
                    status ≠ ACTIONEXEC_STATUS_RUNNING) ->
    script_fetches s = queue ++ final :: rest ->
    exists tr',
      poll (Datatypes.S (length queue) + fuel) json execution (World s tr) =
        (Ok final, World (with_fetches s rest) tr') /\
      refetches tr' = (refetches tr + Datatypes.S (length queue))%nat.
Proof.
  induction queue as [|x queue IH];
    intros fuel json execution id s tr Hw Hid Hq (st & Hst & Hs & Hr) Hf.
  - change (Datatypes.S (length []) + fuel)%nat with (Datatypes.S fuel).
    simpl in Hf. rewrite (poll_turn _ _ _ id) by done.
    rewrite bind_unfold, call_unfold. simpl. rewrite Hf. simpl.
    rewrite (poll_stops _ _ _ st) by done.
    eexists. split; [done|]. rewrite !refetches_app.
    destruct json; simpl; unfold refetches; simpl; lia.
  - apply Forall_cons in Hq as [[Hwx [idx Hidx]] Hq].
    change (Datatypes.S (length (x :: queue)) + fuel)%nat
      with (Datatypes.S (Datatypes.S (length queue) + fuel)).
    rewrite (poll_turn _ _ _ id) by done.
    rewrite bind_unfold, call_unfold. simpl. rewrite Hf. simpl.
    destruct (IH fuel json x idx (with_fetches s (queue ++ final :: rest))
                ((tr ++ EvSleep 1 :: (if json then [] else [EvStdout "."])) ++
                 [EvGetById id]) Hwx Hidx Hq) as (tr' & Hpoll & Hn); [eauto|done|].
    exists tr'. split; [exact Hpoll|]. rewrite Hn, !refetches_app.
    destruct json; simpl; unfold refetches; simpl; lia.
Qed.

End Scripted.



(** C5. In the asynchronous mode [run] never calls [get_by_id] and needs no
    turn of the loop. Once the action and its runner type are found and the
    parameters resolve, [run] returns exactly what [create] answers,
    whatever the status of that execution is, and the submission is the
    last thing it does. Conversely an execution [run] returns is what
    [create] answered. *)
Theorem C5_async_skips_polling `{Library} {S : Type} `{Client S}
  (fuel : nat) (fs : FileSystem) (args : Args) (w : world S) :
  args_async args = true ->
  (exists evs, trace (run fuel fs args w).2 = trace w ++ evs /\
               Forall (fun ev => is_refetch ev = false) evs) /\
  run fuel fs args w = run 0 fs args w /\
  (forall execution, (run fuel fs args w).1 = Ok execution ->
     exists submitted s,
       execution_create submitted s = (inr execution, service (run fuel fs args w).2) /\
       last (trace (run fuel fs args w).2) = Some (EvCreate submitted)) /\
  (forall ref_or_id action runner parameters s1 s2 s3 execution,
     args_ref_or_id args = Some ref_or_id -> ref_or_id ≠ EmptyString ->
     get_resource_by_ref_or_id ref_or_id (service w) = (inr (Some action), s1) ->
     runner_get_by_name (action_runner_type action) s1 = (inr (Some runner), s2) ->
     resolve_parameters fs runner action (args_parameters args) = Ok parameters ->
     execution_create (fresh_execution action parameters) s2 = (inr execution, s3) ->
     run fuel fs args w =
     (Ok execution,
      World s3 (trace w ++ [EvGetAction ref_or_id;
                            EvGetRunner (action_runner_type action);
                            EvCreate (fresh_execution action parameters)]))).
Proof.
  intros Ha. split; [| split; [| split]].
  - by apply run_async_emits.
  - by apply run_async_fuel.
  - intros execution Hrun.
    destruct (run fuel fs args w) as [r w'] eqn:E. simpl in *. subst r.
    by apply (run_async_result fuel fs args w).
  - intros ref_or_id action runner parameters s1 s2 s3 execution.
    by apply run_async_submits.
Qed.

Lemma C5_async_skips_polling_witness :
  args_async (noop_args true) = true /\
  args_ref_or_id (noop_args true) = Some "core.noop" /\
  "core.noop" ≠ EmptyString /\
  get_resource_by_ref_or_id "core.noop" three_fetches =
    (inr (Some bare_action), three_fetches) /\
  runner_get_by_name (action_runner_type bare_action) three_fetches =
    (inr (Some flag_runner), three_fetches) /\
  @resolve_parameters refusing_library one_file_fs flag_runner bare_action
    (args_parameters (noop_args true)) = Ok ∅ /\
  execution_create (fresh_execution bare_action ∅) three_fetches =
    (inr (reported "scheduled"), three_fetches) /\
  @run refusing_library script scripted_client 7 one_file_fs (noop_args true)
    (World three_fetches []) =
  (Ok (reported "scheduled"),
   World three_fetches
     [EvGetAction "core.noop"; EvGetRunner "run-local";
      EvCreate (fresh_execution bare_action ∅)]).
Proof.
  assert ("core.noop" ≠ EmptyString) as Hne by discriminate.
  split; [reflexivity |]. split; [reflexivity |]. split; [exact Hne |].
  split; [reflexivity |]. split; [reflexivity |]. split; [reflexivity |].
  split; [reflexivity |].
  exact (proj2 (proj2 (proj2
           (@C5_async_skips_polling refusing_library script scripted_client
              7%nat one_file_fs (noop_args true) (World three_fetches [])
              eq_refl)))
           "core.noop" bare_action flag_runner ∅
           three_fetches three_fetches three_fetches (reported "scheduled")
           eq_refl Hne eq_refl eq_refl eq_refl eq_refl).
Defined.

(** The asynchronous run on the scripted service: the execution comes back
    as submitted, still [scheduled], and the fetches are untouched. *)
Example async_run `{Library} (fuel : nat) (fs : FileSystem) :
  run fuel fs (noop_args true) (World three_fetches []) =
  (Ok (reported "scheduled"),
   World three_fetches
     [EvGetAction "core.noop"; EvGetRunner "run-local";
      EvCreate {| exec_action := "core.noop"; exec_parameters := ∅;
                  exec_id := None; exec_status := None; exec_result := None |}]).
Proof. reflexivity. Qed.

(** The same run on a service that answers the submission with any other
    status: the execution comes back with that status, settled or not, and
    no fetch is consumed. *)
Example async_run_any_status `{Library} (fuel : nat) (fs : FileSystem)
  (status : string) :
  run fuel fs (noop_args true) (World (with_status status three_fetches) []) =
  (Ok (reported status),
   World (with_status status three_fetches)
     [EvGetAction "core.noop"; EvGetRunner "run-local";
      EvCreate (fresh_execution bare_action ∅)]).
Proof. reflexivity. Qed.

(** ** Help renderer: the order of the parameters *)

(** *** The order on sort keys *)

Lemma str_ltb_leb s t : String.ltb s t = negb (String.leb t s).
Proof.
  unfold String.ltb, String.leb. rewrite (String.compare_antisym t s).
  by destruct (String.compare s t).
Qed.

Lemma str_leb_trans s t u :
  String.leb s t = true -> String.leb t u = true -> String.leb s u = true.
Proof.
  intros H1 H2. apply Is_true_true.
  apply (transitivity (R:=String.le) (y:=t)); by apply Is_true_true.
Qed.

Lemma key_lt_irrefl a : key_lt a a = false.
Proof.
  destruct a as [|n|s]; simpl; [done | apply Z.ltb_irrefl |].
  rewrite str_ltb_leb. by destruct (String.leb_total s s) as [-> | ->].
Qed.

Lemma key_lt_asym a b : key_lt a b = true -> key_lt b a = false.
Proof.
  destruct a as [|n|s], b as [|m|t]; simpl; try done.
  - intros Hlt%Z.ltb_lt. apply Z.ltb_ge. lia.
  - rewrite !str_ltb_leb. intros Hlt%negb_true_iff.
    destruct (String.leb_total s t) as [-> | Hts]; [done | congruence].
Qed.

Lemma key_lt_trans a b c :
  key_lt a b = true -> key_lt b c = true -> key_lt a c = true.
Proof.
  destruct a as [|n|s], b as [|m|t], c as [|p|u]; simpl; try done.
  - intros H1%Z.ltb_lt H2%Z.ltb_lt. apply Z.ltb_lt. lia.
  - rewrite !str_ltb_leb. intros H1%negb_true_iff H2%negb_true_iff.
    apply negb_true_iff. destruct (String.leb u s) eqn:Hus; [|done].
    destruct (String.leb_total s t) as [Hst | Hts]; [|congruence].
    by rewrite (str_leb_trans u s t) in H2.
Qed.

Lemma key_lt_connex a b : key_lt a b = false -> key_lt b a = false -> a = b.
Proof.
  destruct a as [|n|s], b as [|m|t]; simpl; try done.
  - intros H1%Z.ltb_ge H2%Z.ltb_ge. f_equal. lia.
  - rewrite !str_ltb_leb. intros H1%negb_false_iff H2%negb_false_iff.
    f_equal. by apply String.leb_antisym.
Qed.

Lemma key_le_trans a b c : key_le a b -> key_le b c -> key_le a c.
Proof.
  unfold key_le. intros Hab Hbc.
  destruct (key_lt c a) eqn:Hca; [|done].
  destruct (key_lt a b) eqn:Hab'.
  - by rewrite (key_lt_trans c a b) in Hbc.
  - rewrite <- (key_lt_connex a b) in Hbc by done. congruence.
Qed.

(** *** Insertion sort on comparable keys *)

Lemma Sorted_weaken {A} (R R' : A -> A -> Prop) (l : list A) :
  (forall x y, x ∈ l -> y ∈ l -> R x y -> R' x y) -> Sorted R l -> Sorted R' l.
Proof.
  intros HR Hs. induction Hs as [|x l Hs IH Hhd]; constructor.
  - apply IH. intros y z Hy Hz. apply HR; by right.
  - destruct Hhd as [|y l Hxy]; constructor.
    apply HR; [by left | right; by left | done].
Qed.

Section SortBy.

Variable k : string -> sort_key.

Let le_k (x y : string) : Prop := key_le (k x) (k y).

Lemma insert_by_perm x l : insert_by k x l ≡ₚ x :: l.
Proof.
  induction l as [|y l IH]; simpl; [done|].
  destruct (key_lt (k y) (k x)); [|done].
  by rewrite IH, Permutation_swap.
Qed.

Lemma sort_by_perm l : sort_by k l ≡ₚ l.
Proof.
  induction l as [|x l IH]; simpl; [done|]. by rewrite insert_by_perm, IH.
Qed.

Lemma insert_by_hd x y l :
  le_k y x -> HdRel le_k y l -> HdRel le_k y (insert_by k x l).
Proof.
  intros Hyx Hhd. destruct Hhd as [|z l Hyz]; simpl; [by constructor|].
  destruct (key_lt (k z) (k x)); by constructor.
Qed.

Lemma insert_by_sorted x l : Sorted le_k l -> Sorted le_k (insert_by k x l).
Proof.
  induction 1 as [|y l Hs IH Hhd]; simpl; [by repeat constructor|].
  destruct (key_lt (k y) (k x)) eqn:Hlt.
  - constructor; [done|]. apply insert_by_hd; [|done].
    by apply key_lt_asym.
  - constructor; [by constructor|]. by constructor.
Qed.

Lemma sort_by_sorted l : Sorted le_k (sort_by k l).
Proof.
  induction l as [|x l IH]; simpl; [constructor|]. by apply insert_by_sorted.
Qed.

Lemma sort_by_strongly_sorted l : StronglySorted le_k (sort_by k l).
Proof.
  apply Sorted_StronglySorted; [|apply sort_by_sorted].
  intros x y z. apply key_le_trans.
Qed.

(** Two sorted arrangements of the same names are the same list, as long
    as no two of the names share a key. *)
Lemma sorted_perm_unique l1 :
  forall l2,
    StronglySorted le_k l1 -> StronglySorted le_k l2 -> l1 ≡ₚ l2 ->
    (forall x y, x ∈ l1 -> y ∈ l1 -> k x = k y -> x = y) ->
    l1 = l2.
Proof.
  induction l1 as [|x l1 IH]; intros l2 H1 H2 Hp Hinj.
  - by apply Permutation_nil_l in Hp.
  - destruct l2 as [|y l2]; [by apply Permutation_nil_r in Hp|].
    apply StronglySorted_inv in H1 as [H1 Hx].
    apply StronglySorted_inv in H2 as [H2 Hy].
    rewrite List.Forall_forall in Hx, Hy.
    assert (x = y) as ->.
    { assert (x ∈ y :: l2) as Hxin by (rewrite <- Hp; by left).
      assert (y ∈ x :: l1) as Hyin by (rewrite Hp; by left).
      apply elem_of_cons in Hxin as [Hxy | Hxin]; [done|].
      apply elem_of_cons in Hyin as [Hyx | Hyin]; [done|].
      apply Hinj; [by left | by right |].
      apply key_lt_connex.
      - apply (Hy x). by apply list_elem_of_In.
      - apply (Hx y). by apply list_elem_of_In. }
    f_equal. apply IH; try done.
    + by apply Permutation_cons_inv in Hp.
    + intros a b Ha Hb. apply Hinj; by right.
Qed.

Lemma sort_by_unique l l' :
  l ≡ₚ l' -> (forall x y, x ∈ l -> y ∈ l -> k x = k y -> x = y) ->
  sort_by k l = sort_by k l'.
Proof.
  intros Hp Hinj. apply sorted_perm_unique.
  - apply sort_by_strongly_sorted.
  - apply sort_by_strongly_sorted.
  - by rewrite !sort_by_perm.
  - intros x y Hx Hy. rewrite sort_by_perm in Hx, Hy. by apply Hinj.
Qed.

(** *** [sorted] on keys that can all be compared *)

Variable key : string -> pyval.

Lemma insert_sorted_by x l :
  (forall y, y ∈ x :: l -> as_key (key y) = Some (k y)) ->
  insert_sorted key x l = Ok (insert_by k x l).
Proof.
  induction l as [|y l IH]; intros Hk; simpl; [done|].
  unfold py2_lt.
  rewrite (Hk y) by (right; by left). rewrite (Hk x) by (by left). simpl.
  destruct (key_lt (k y) (k x)); [|done].
  rewrite IH; [done|]. intros z Hz. apply Hk.
  apply elem_of_cons in Hz as [-> | Hz]; [by left | right; by right].
Qed.

Lemma sorted_by l :
  (forall y, y ∈ l -> as_key (key y) = Some (k y)) ->
  sorted key l = Ok (sort_by k l).
Proof.
  induction l as [|x l IH]; intros Hk; simpl; [done|].
  rewrite IH by (intros y Hy; apply Hk; by right). simpl.
  apply insert_sorted_by. intros y Hy. apply Hk.
  apply elem_of_cons in Hy as [-> | Hy]; [by left | right].
  by rewrite sort_by_perm in Hy.
Qed.

Lemma sort_by_ascending l :
  (forall y, y ∈ l -> as_key (key y) = Some (k y)) ->
  ascending key (sort_by k l).
Proof.
  intros Hk. unfold ascending.
  apply (Sorted_weaken le_k); [|apply sort_by_sorted].
  intros x y Hx Hy Hle. rewrite sort_by_perm in Hx, Hy.
  unfold py2_lt. by rewrite (Hk x), (Hk y), Hle.
Qed.

End SortBy.

Section SortParameters.

Variable parameters : gmap string (gmap string pyval).

Lemma sort_value_missing name :
  parameters !! name = None \/ parameters !! name = Some ∅ ->
  _get_parameter_sort_value parameters name = PNone.
Proof.
  unfold _get_parameter_sort_value. intros [-> | ->]; [done|].
  by rewrite bool_decide_eq_true_2.
Qed.

Lemma sort_value_declared name meta :
  parameters !! name = Some meta -> meta ≠ ∅ ->
  _get_parameter_sort_value parameters name = spec_sort_value parameters name.
Proof.
  unfold _get_parameter_sort_value, spec_sort_value, dict_get.
  intros -> Hne. rewrite bool_decide_eq_false_2 by done. simpl.
  by destruct (meta !! "position").
Qed.

Lemma sort_key_of_spec (names : list string) name :
  (forall n, n ∈ names ->
             is_Some (as_key (_get_parameter_sort_value parameters n))) ->
  name ∈ names ->
  as_key (_get_parameter_sort_value parameters name) =
  Some (sort_key_of parameters name).
Proof.
  intros Hk Hn. unfold sort_key_of. by destruct (Hk name Hn) as [key ->].
Qed.

Lemma sort_parameters_sort_by (names : list string) :
  (forall n, n ∈ names ->
             is_Some (as_key (_get_parameter_sort_value parameters n))) ->
  _sort_parameters parameters names =
  Ok (sort_by (sort_key_of parameters) names).
Proof.
  intros Hk. apply sorted_by. intros y Hy. by apply (sort_key_of_spec names).
Qed.

End SortParameters.

(** C9, as the code has it. [_sort_parameters] returns the given names in
    ascending order of their sort value: the declared [position] when
    there is one and the name otherwise, for a parameter whose schema is
    not empty; [None] for a parameter whose schema is missing or empty.
    With no two names sharing a key the result does not depend on the
    order the names come in: the positions 2, 0, 1 come out as 0, 1, 2, and
    parameters without a position come out in the order of their names.
    The sort values are [None], numbers or text. *)
Theorem C9_sort_parameters (parameters : gmap string (gmap string pyval))
  (names : list string) :
  (forall name, name ∈ names ->
     is_Some (as_key (_get_parameter_sort_value parameters name))) ->
  (exists out,
     _sort_parameters parameters names = Ok out /\
     out ≡ₚ names /\
     ascending (_get_parameter_sort_value parameters) out /\
     forall names',
       names' ≡ₚ names ->
       (forall x y, x ∈ names -> y ∈ names ->
                    sort_key_of parameters x = sort_key_of parameters y -> x = y) ->
       _sort_parameters parameters names' = Ok out) /\
  (forall name meta,
     parameters !! name = Some meta -> meta ≠ ∅ ->
     _get_parameter_sort_value parameters name = spec_sort_value parameters name) /\
  (forall name,
     parameters !! name = None \/ parameters !! name = Some ∅ ->
     _get_parameter_sort_value parameters name = PNone) /\
  (forall names',
     names' ≡ₚ ["alpha"; "beta"; "gamma"] ->
     _sort_parameters positioned names' = Ok ["beta"; "gamma"; "alpha"]) /\
  (forall names',
     names' ≡ₚ ["timeout"; "cwd"; "env"] ->
     _sort_parameters positioned names' = Ok ["cwd"; "env"; "timeout"]).
Proof.
  intros Hk. split_and!.
  - exists (sort_by (sort_key_of parameters) names). split_and!.
    + by apply sort_parameters_sort_by.
    + apply sort_by_perm.
    + apply sort_by_ascending. intros y Hy. by apply (sort_key_of_spec _ names).
    + intros names' Hp Hinj. rewrite sort_parameters_sort_by.
      * f_equal. symmetry. by apply sort_by_unique.
      * intros n Hn. apply Hk. by rewrite <- Hp.
  - apply sort_value_declared.
  - apply sort_value_missing.
  - intros names' Hp. rewrite sort_parameters_sort_by.
    + rewrite (sort_by_unique _ names' ["alpha"; "beta"; "gamma"] Hp);
        [vm_compute; reflexivity |].
      intros x y Hx Hy Heq. rewrite Hp in Hx, Hy.
      apply list_elem_of_In in Hx, Hy. simpl in Hx, Hy.
      destruct Hx as [<-|[<-|[<-|[]]]], Hy as [<-|[<-|[<-|[]]]];
        first [reflexivity | vm_compute in Heq; discriminate Heq].
    + intros n Hn. rewrite Hp in Hn.
      apply list_elem_of_In in Hn. simpl in Hn.
      destruct Hn as [<-|[<-|[<-|[]]]]; eexists; vm_compute; reflexivity.
  - intros names' Hp. rewrite sort_parameters_sort_by.
    + rewrite (sort_by_unique _ names' ["timeout"; "cwd"; "env"] Hp);
        [vm_compute; reflexivity |].
      intros x y Hx Hy Heq. rewrite Hp in Hx, Hy.
      apply list_elem_of_In in Hx, Hy. simpl in Hx, Hy.
      destruct Hx as [<-|[<-|[<-|[]]]], Hy as [<-|[<-|[<-|[]]]];
        first [reflexivity | vm_compute in Heq; discriminate Heq].
    + intros n Hn. rewrite Hp in Hn.
      apply list_elem_of_In in Hn. simpl in Hn.
      destruct Hn as [<-|[<-|[<-|[]]]]; eexists; vm_compute; reflexivity.
Qed.

Lemma C9_sort_parameters_witness :
  (forall name, name ∈ ["gamma"; "alpha"; "beta"] ->
     is_Some (as_key (_get_parameter_sort_value positioned name))) /\
  exists out,
    _sort_parameters positioned ["gamma"; "alpha"; "beta"] = Ok out /\
    out ≡ₚ ["gamma"; "alpha"; "beta"] /\
    ascending (_get_parameter_sort_value positioned) out.
Proof.
  assert (forall name, name ∈ ["gamma"; "alpha"; "beta"] ->
     is_Some (as_key (_get_parameter_sort_value positioned name))) as Hk.
  { intros name Hn. apply list_elem_of_In in Hn. simpl in Hn.
    destruct Hn as [<-|[<-|[<-|[]]]]; eexists; vm_compute; reflexivity. }
  split; [exact Hk |].
  destruct (proj1 (C9_sort_parameters positioned ["gamma"; "alpha"; "beta"] Hk))
    as (out & Hout & Hperm & Hasc & _).
  exists out. split; [exact Hout |]. split; [exact Hperm | exact Hasc].
Defined.

(** C9 as stated fails for parameters whose schema is empty: they all get
    the sort value [None], so [b] stays before [a], which is not the order
    of the names. *)
Lemma C9_empty_schema_counterexample :
  _sort_parameters positioned ["b"; "a"] = Ok ["b"; "a"] /\
  ~ ascending (spec_sort_value positioned) ["b"; "a"].
Proof.
  split; [reflexivity |]. intros Hs.
  apply Sorted_inv in Hs as [_ Hhd]. apply HdRel_inv in Hhd.
  vm_compute in Hhd. discriminate.
Qed.

(** The order on a mixed set: parameters without a usable schema first, in
    the order they came, then the positioned ones, then the others by
    name. *)
Example sort_mixed :
  _sort_parameters positioned
    ["timeout"; "alpha"; "b"; "beta"; "cwd"; "gamma"; "a"; "env"; "ghost"] =
  Ok ["b"; "a"; "ghost"; "beta"; "gamma"; "alpha"; "cwd"; "env"; "timeout"].
Proof. reflexivity. Qed.

(** ** More on the argument parser *)

Lemma split1_no_char c s : Str.has_char c s = false -> Str.split1 c s = [s].
Proof.
  induction s as [|a s IH]; simpl; [done|].
  intros [-> Hs]%orb_false_elim. by rewrite IH.
Qed.

Lemma token_keys_bare arg : Str.has_char "=" arg = false -> token_keys arg = ["cmd"].
Proof. intros Harg. unfold token_keys. by rewrite split1_no_char. Qed.

Lemma has_char_plain_token k v : Str.has_char "=" (plain_token k v) = true.
Proof.
  unfold plain_token. rewrite has_char_app. simpl. by rewrite orb_true_r.
Qed.

Section ParserMore.

Context `{Library} (fs : FileSystem) (runner : RunnerType) (action : Action).

Local Abbreviation keyed := (keyed_token fs runner action).
Local Abbreviation scan := (scan_parameters fs runner action).

Lemma keyed_plain_token k v params :
  Str.has_char "=" k = false -> Str.startswith k "@" = false ->
  keyed (plain_token k v) params =
  on_exception (x ← normalize runner action k v; Ok (<[k := x]> params)).
Proof.
  intros Hk Hat. unfold keyed_token, plain_token.
  rewrite split1_cut by done. cbv beta iota. by rewrite Hat.
Qed.

Lemma token_keys_plain_token k v :
  Str.has_char "=" k = false -> Str.startswith k "@" = false ->
  token_keys (plain_token k v) = [k].
Proof.
  intros Hk Hat. unfold token_keys, plain_token.
  rewrite split1_cut by done. by rewrite Hat.
Qed.

(** The scan leaves alone every key that no token names. *)
Lemma scan_untouched args params params' q :
  scan args params = Ok params' ->
  (forall arg, arg ∈ args -> q ∉ token_keys arg) ->
  params' !! q = params !! q.
Proof.
  revert params. induction args as [|arg rest IH]; intros params Hs Hq.
  - by inversion Hs.
  - simpl in Hs. destruct (Str.has_char "=" arg) eqn:Harg.
    + destruct (keyed arg params) as [p1| | |] eqn:Hk; simpl in Hs; try done.
      rewrite (IH p1 Hs); [| intros a Ha; apply Hq; by right].
      eapply keyed_token_frame; [exact Hk|]. apply Hq. by left.
    + inversion Hs; subst. apply lookup_insert_ne. intros <-.
      apply (Hq arg); [by left|]. rewrite token_keys_bare by done. by left.
Qed.

End ParserMore.

Section ParserExtras.

Context `{Library} (fs : FileSystem) (runner : RunnerType) (action : Action).

Local Abbreviation keyed := (keyed_token fs runner action).
Local Abbreviation scan := (scan_parameters fs runner action).

(** The post-pass when [file_content] is there but nothing was staged. *)
Lemma file_defaults_unstaged params content :
  params !! "file_content" = Some content ->
  params !! "_file_name" = None ->
  file_defaults params = Raise (Exn KeyError "'_file_name'").
Proof.
  intros Hc Hs. unfold file_defaults.
  rewrite bool_decide_eq_true_2 by (by rewrite Hc).
  destruct (params !! "method") as [m|] eqn:Hm; decide_present; simpl.
  - destruct (params !! "file_name") as [n|] eqn:Hn; decide_present; simpl.
    + unfold dict_del. by rewrite Hs.
    + unfold dict_item. by rewrite Hs.
  - rewrite lookup_insert_ne by done.
    destruct (params !! "file_name") as [n|] eqn:Hn; decide_present; simpl.
    + unfold dict_del. by rewrite lookup_insert_ne, Hs.
    + unfold dict_item. by rewrite lookup_insert_ne, Hs.
Qed.

(** The post-pass adds no key but [method] and [file_name]. *)
Lemma file_defaults_keys params m q :
  file_defaults params = Ok m -> is_Some (m !! q) ->
  is_Some (params !! q) \/ q = "method" \/ q = "file_name".
Proof.
  intros Hd Hq.
  destruct (params !! "file_content") as [c|] eqn:Hc.
  - destruct (params !! "_file_name") as [staged|] eqn:Hs.
    + rewrite (file_defaults_staged _ _ _ Hc Hs) in Hd. inversion Hd; subst m.
      destruct (decide (q = "file_name")) as [->|]; [by right; right|].
      destruct (decide (q = "method")) as [->|]; [by right; left|].
      left. destruct (decide (q = "_file_name")) as [->|]; [by rewrite Hs|].
      by rewrite lookup_delete_ne, !lookup_insert_ne in Hq.
    + by rewrite (file_defaults_unstaged _ _ Hc Hs) in Hd.
  - rewrite file_defaults_no_file in Hd by done. inversion Hd; subst. by left.
Qed.

(** X1. The value of a key is that of the last token that names it. *)
Theorem last_token_wins (pre post : list string) (k v : string) (x : pyval)
  (params m : gmap string pyval) :
  Forall (fun arg => Str.has_char "=" arg = true) pre ->
  Str.has_char "=" k = false -> Str.startswith k "@" = false ->
  normalize runner action k v = Ok x ->
  (forall arg, arg ∈ post -> k ∉ token_keys arg) ->
  scan (pre ++ plain_token k v :: post) params = Ok m ->
  m !! k = Some x.
Proof.
  intros Hpre Hk Hat Hn Hpost Hs.
  rewrite scan_app in Hs by done.
  destruct (scan pre params) as [p1| | |];
    cbn [mbind result_bind] in Hs; try done.
  rewrite scan_cons_keyed in Hs by apply has_char_plain_token.
  rewrite keyed_plain_token, Hn in Hs by done.
  cbn [mbind result_bind on_exception] in Hs.
  rewrite (scan_untouched _ _ _ _ _ _ k Hs Hpost).
  apply lookup_insert_eq.
Qed.

(** X2. Every key of the resolved mapping is named by a token of the line,
    or is [method] or [file_name]. *)
Theorem resolved_keys_named (args : list string) (m : gmap string pyval)
  (q : string) :
  resolve_parameters fs runner action args = Ok m ->
  is_Some (m !! q) ->
  (exists arg, arg ∈ args /\ q ∈ token_keys arg) \/
  q = "method" \/ q = "file_name".
Proof.
  unfold resolve_parameters. intros Hr Hq.
  destruct (scan args ∅) as [p| | |] eqn:Hs; simpl in Hr; try done.
  destruct (file_defaults_keys _ _ _ Hr Hq) as [Hp | Hother]; [|by right].
  left. destruct (decide (Exists (fun arg => q ∈ token_keys arg) args))
    as [Hex | Hnex].
  - apply Exists_exists in Hex as (arg & Harg & Hin). eauto.
  - rewrite (scan_untouched _ _ _ _ _ _ q Hs), lookup_empty in Hp.
    + by destruct Hp.
    + intros arg Harg Hin. apply Hnex, Exists_exists. eauto.
Qed.

(** X3. A line that sets [file_content] without staging a file ends in a
    [KeyError] for [_file_name]. *)
Theorem file_content_without_file (args : list string)
  (params : gmap string pyval) :
  scan args ∅ = Ok params ->
  is_Some (params !! "file_content") ->
  (forall arg, arg ∈ args -> "_file_name" ∉ token_keys arg) ->
  resolve_parameters fs runner action args = Raise (Exn KeyError "'_file_name'").
Proof.
  intros Hs [c Hc] Hn. unfold resolve_parameters. rewrite Hs. simpl.
  apply (file_defaults_unstaged _ c Hc).
  by rewrite (scan_untouched _ _ _ _ _ _ "_file_name" Hs Hn), lookup_empty.
Qed.

(** X4. A [type] attribute that is a list or a dict makes every value of the
    parameter fail with a [TypeError], whatever the action declares. *)
Theorem unhashable_type_refused (name value : string) (ty : pyval)
  (params : gmap string pyval) :
  declared_type (runner_parameters runner) name = Some ty ->
  hashable ty = false ->
  Str.has_char "=" name = false -> Str.startswith name "@" = false ->
  normalize runner action name value =
    Raise (Exn TypeError ("unhashable type: '" +:+ type_name ty +:+ "'")) /\
  keyed (plain_token name value) params =
    Raise (Exn TypeError ("unhashable type: '" +:+ type_name ty +:+ "'")).
Proof.
  intros Hty Hh Hk Hat.
  assert (normalize runner action name value =
          Raise (Exn TypeError ("unhashable type: '" +:+ type_name ty +:+ "'")))
    as Hn.
  { unfold normalize. by rewrite (schema_transformer_unhashable _ _ ty Hty Hh). }
  split; [exact Hn|]. rewrite keyed_plain_token, Hn by done.
  by destruct ty.
Qed.

End ParserExtras.

Lemma last_token_wins_witness :
  Forall (fun arg => Str.has_char "=" arg = true) ["x=1"] /\
  Str.has_char "=" "x" = false /\ Str.startswith "x" "@" = false /\
  @normalize refusing_library flag_runner bare_action "x" "2" = Ok (PInt 2) /\
  (forall arg, arg ∈ ["y=3"] -> "x" ∉ token_keys arg) /\
  @scan_parameters refusing_library one_file_fs flag_runner bare_action
    (["x=1"] ++ plain_token "x" "2" :: ["y=3"]) ∅ =
    Ok {[ "x" := PInt 2; "y" := PStr "3" ]} /\
  ({[ "x" := PInt 2; "y" := PStr "3" ]} : gmap string pyval) !! "x" = Some (PInt 2).
Proof.
  assert (Forall (fun arg => Str.has_char "=" arg = true) ["x=1"]) as H1
    by (repeat constructor).
  assert (Str.has_char "=" "x" = false) as H2 by reflexivity.
  assert (Str.startswith "x" "@" = false) as H3 by reflexivity.
  assert (@normalize refusing_library flag_runner bare_action "x" "2" = Ok (PInt 2))
    as H4 by reflexivity.
  assert (forall arg, arg ∈ ["y=3"] -> "x" ∉ token_keys arg) as H5.
  { intros arg Harg. apply list_elem_of_In in Harg. simpl in Harg.
    destruct Harg as [<-|[]]. change (token_keys "y=3") with ["y"].
    intros Hin. apply list_elem_of_singleton in Hin. discriminate Hin. }
  assert (@scan_parameters refusing_library one_file_fs flag_runner bare_action
            (["x=1"] ++ plain_token "x" "2" :: ["y=3"]) ∅ =
          Ok {[ "x" := PInt 2; "y" := PStr "3" ]}) as H6 by reflexivity.
  split; [exact H1|]. split; [exact H2|]. split; [exact H3|].
  split; [exact H4|]. split; [exact H5|]. split; [exact H6|].
  exact (@last_token_wins refusing_library one_file_fs flag_runner bare_action
           ["x=1"] ["y=3"] "x" "2" (PInt 2) ∅ _ H1 H2 H3 H4 H5 H6).
Defined.

Lemma resolved_keys_named_witness :
  @resolve_parameters refusing_library one_file_fs flag_runner bare_action
    ["x=1"; "free"; "text"] = Ok {[ "x" := PInt 1; "cmd" := PStr "free text" ]} /\
  is_Some (({[ "x" := PInt 1; "cmd" := PStr "free text" ]} : gmap string pyval)
             !! "cmd") /\
  ((exists arg, arg ∈ ["x=1"; "free"; "text"] /\ "cmd" ∈ token_keys arg) \/
   "cmd" = "method" \/ "cmd" = "file_name").
Proof.
  assert (@resolve_parameters refusing_library one_file_fs flag_runner bare_action
            ["x=1"; "free"; "text"] =
          Ok {[ "x" := PInt 1; "cmd" := PStr "free text" ]}) as H1 by reflexivity.
  assert (is_Some (({[ "x" := PInt 1; "cmd" := PStr "free text" ]}
                      : gmap string pyval) !! "cmd")) as H2
    by (eexists; reflexivity).
  split; [exact H1|]. split; [exact H2|].
  exact (@resolved_keys_named refusing_library one_file_fs flag_runner bare_action
           ["x=1"; "free"; "text"] _ "cmd" H1 H2).
Defined.

Lemma file_content_without_file_witness :
  @scan_parameters refusing_library one_file_fs flag_runner bare_action
    ["file_content=abc"] ∅ = Ok {[ "file_content" := PStr "abc" ]} /\
  is_Some (({[ "file_content" := PStr "abc" ]} : gmap string pyval)
             !! "file_content") /\
  (forall arg, arg ∈ ["file_content=abc"] -> "_file_name" ∉ token_keys arg) /\
  @resolve_parameters refusing_library one_file_fs flag_runner bare_action
    ["file_content=abc"] = Raise (Exn KeyError "'_file_name'").
Proof.
  assert (@scan_parameters refusing_library one_file_fs flag_runner bare_action
            ["file_content=abc"] ∅ = Ok {[ "file_content" := PStr "abc" ]}) as H1
    by reflexivity.
  assert (is_Some (({[ "file_content" := PStr "abc" ]} : gmap string pyval)
                     !! "file_content")) as H2 by (eexists; reflexivity).
  assert (forall arg, arg ∈ ["file_content=abc"] ->
                      "_file_name" ∉ token_keys arg) as H3.
  { intros arg Harg. apply list_elem_of_In in Harg. simpl in Harg.
    destruct Harg as [<-|[]].
    change (token_keys "file_content=abc") with ["file_content"].
    intros Hin. apply list_elem_of_singleton in Hin. discriminate Hin. }
  split; [exact H1|]. split; [exact H2|]. split; [exact H3|].
  exact (@file_content_without_file refusing_library one_file_fs flag_runner
           bare_action ["file_content=abc"] _ H1 H2 H3).
Defined.

Lemma unhashable_type_refused_witness :
  declared_type (runner_parameters union_runner) "port" =
    Some (PList [PStr "integer"; PStr "null"]) /\
  hashable (PList [PStr "integer"; PStr "null"]) = false /\
  Str.has_char "=" "port" = false /\ Str.startswith "port" "@" = false /\
  @normalize refusing_library union_runner bare_action "port" "80" =
    Raise (Exn TypeError
             ("unhashable type: '" +:+
              type_name (PList [PStr "integer"; PStr "null"]) +:+ "'")) /\
  @keyed_token refusing_library one_file_fs union_runner bare_action
    (plain_token "port" "80") ∅ =
    Raise (Exn TypeError
             ("unhashable type: '" +:+
              type_name (PList [PStr "integer"; PStr "null"]) +:+ "'")).
Proof.
  assert (declared_type (runner_parameters union_runner) "port" =
          Some (PList [PStr "integer"; PStr "null"])) as H1 by reflexivity.
  assert (hashable (PList [PStr "integer"; PStr "null"]) = false) as H2
    by reflexivity.
  assert (Str.has_char "=" "port" = false) as H3 by reflexivity.
  assert (Str.startswith "port" "@" = false) as H4 by reflexivity.
  split; [exact H1|]. split; [exact H2|]. split; [exact H3|]. split; [exact H4|].
  exact (@unhashable_type_refused refusing_library one_file_fs union_runner
           bare_action "port" "80" _ ∅ H1 H2 H3 H4).
Defined.

(** ** More on the value transformers *)

Lemma split_cons c s : exists h t, Str.split c s = h :: t.
Proof.
  destruct s as [|a s]; simpl; [by eexists _, _|].
  destruct (Str.eqc a c); [by eexists _, _|].
  destruct (Str.split c s); by eexists _, _.
Qed.

Lemma length_split c s : length (Str.split c s) = Datatypes.S (count_char c s).
Proof.
  induction s as [|a s IH]; simpl; [done|].
  destruct (Str.eqc a c); simpl; [by rewrite IH|].
  destruct (Str.split c s); simpl in *; done.
Qed.

Lemma join_split c s : Str.join (String c EmptyString) (Str.split c s) = s.
Proof.
  unfold Str.join. induction s as [|a s IH]; simpl; [done|].
  destruct (Str.eqc a c) eqn:Hac.
  - unfold Str.eqc in Hac. apply bool_decide_eq_true in Hac as ->.
    destruct (split_cons c s) as (h & t & Hs). rewrite Hs in *.
    change (String.concat (String c EmptyString) (EmptyString :: h :: t))
      with (String c (String.concat (String c EmptyString) (h :: t))).
    by rewrite IH.
  - destruct (Str.split c s) as [|h [|h' t]]; simpl in *; by rewrite <- IH.
Qed.

Lemma split_no_char c s :
  Forall (fun p => Str.has_char c p = false) (Str.split c s).
Proof.
  induction s as [|a s IH]; simpl; [by repeat constructor|].
  destruct (Str.eqc a c) eqn:Hac; [by constructor|].
  destruct (Str.split c s) as [|h t]; [by repeat constructor; simpl; rewrite Hac|].
  apply Forall_cons in IH as [Hh Ht]. constructor; [|done].
  simpl. by rewrite Hac, Hh.
Qed.

Lemma split_all p c s :
  Str.all p s = true -> Forall (fun q => Str.all p q = true) (Str.split c s).
Proof.
  induction s as [|a s IH]; simpl; [by repeat constructor|].
  intros [Ha Hs]%andb_true_iff. specialize (IH Hs).
  destruct (Str.eqc a c); [by constructor|].
  destruct (Str.split c s) as [|h t]; [by repeat constructor; simpl; rewrite Ha|].
  apply Forall_cons in IH as [Hh Ht]. constructor; [|done].
  simpl. by rewrite Ha, Hh.
Qed.

Lemma rstrip_idem s : Str.rstrip (Str.rstrip s) = Str.rstrip s.
Proof.
  induction s as [|a s IH]; simpl; [done|].
  destruct (Str.rstrip s) as [|b r] eqn:Hr.
  - destruct (Str.is_space a) eqn:Ha; simpl; [done|]. by rewrite Ha.
  - change (Str.rstrip (String a (String b r)))
      with (match Str.rstrip (String b r) with
            | EmptyString =>
                if Str.is_space a then EmptyString else String a EmptyString
            | r' => String a r'
            end).
    by rewrite IH.
Qed.

Lemma lstrip_starts_clean s : starts_clean (Str.lstrip s).
Proof.
  induction s as [|a s IH]; simpl; [done|].
  destruct (Str.is_space a) eqn:Ha; [done|]. by simpl.
Qed.

Lemma lstrip_clean s : starts_clean s -> Str.lstrip s = s.
Proof. destruct s as [|a s]; simpl; [done|]. by intros ->. Qed.

Lemma rstrip_starts_clean s : starts_clean s -> starts_clean (Str.rstrip s).
Proof.
  destruct s as [|a s]; simpl; [done|]. intros Ha.
  destruct (Str.rstrip s); by rewrite ?Ha.
Qed.

Lemma strip_idem s : Str.strip (Str.strip s) = Str.strip s.
Proof.
  unfold Str.strip.
  rewrite (lstrip_clean (Str.rstrip (Str.lstrip s)))
    by apply rstrip_starts_clean, lstrip_starts_clean.
  apply rstrip_idem.
Qed.

Lemma has_char_lstrip c s :
  Str.has_char c s = false -> Str.has_char c (Str.lstrip s) = false.
Proof.
  induction s as [|a s IH]; simpl; [done|].
  intros [Ha Hs]%orb_false_elim.
  destruct (Str.is_space a); [by apply IH|]. simpl. by rewrite Ha, Hs.
Qed.

Lemma has_char_rstrip c s :
  Str.has_char c s = false -> Str.has_char c (Str.rstrip s) = false.
Proof.
  induction s as [|a s IH]; simpl; [done|].
  intros [Ha Hs]%orb_false_elim. specialize (IH Hs).
  destruct (Str.rstrip s) as [|b r].
  - destruct (Str.is_space a); simpl; [done|]. by rewrite Ha.
  - simpl in *. by rewrite Ha, IH.
Qed.

Lemma strip_no_blank s :
  Str.all (fun a => negb (Str.is_space a)) s = true -> Str.strip s = s.
Proof.
  intros Hs. unfold Str.strip.
  assert (Str.lstrip s = s) as ->.
  { destruct s as [|a s]; simpl in *; [done|].
    apply andb_true_iff in Hs as [Ha _]. by destruct (Str.is_space a). }
  induction s as [|a s IH]; simpl in *; [done|].
  apply andb_true_iff in Hs as [Ha Hs]. rewrite (IH Hs).
  destruct s; [|done]. by destruct (Str.is_space a).
Qed.

(** X5. The [array] conversion never fails. It yields one more item than the
    text has commas (one empty item for the empty text); no item has a comma
    or a blank at either end; and on a text without blanks the items joined
    by commas give the text back. *)
Theorem array_transformer_items `{Library} :
  exists f,
    transformer !! "array" = Some f /\
    forall x, exists items,
      f x = Ok (PList (List.map PStr items)) /\
      length items = Datatypes.S (count_char "," x) /\
      Forall (fun s => Str.strip s = s /\ Str.has_char "," s = false) items /\
      (Str.all (fun a => negb (Str.is_space a)) x = true ->
       Str.join "," items = x).
Proof.
  eexists. split; [reflexivity|]. intros x.
  exists (List.map Str.strip (Str.split "," x)). split_and!.
  - by rewrite List.map_map.
  - by rewrite length_map, length_split.
  - apply List.Forall_map. eapply Forall_impl; [apply split_no_char|].
    intros s Hs. simpl. split; [apply strip_idem|].
    unfold Str.strip. by apply has_char_rstrip, has_char_lstrip.
  - intros Hx. rewrite <- (join_split "," x) at 2. f_equal.
    apply split_all with (c := ","%char) in Hx.
    induction Hx as [|s l Hs _ IH]; simpl; [done|].
    by rewrite IH, strip_no_blank.
Qed.

(** X6. Every spelling of [true] and of [false], whatever the case of its
    letters, is converted to the boolean. *)
Theorem boolean_transformer_spellings `{Library} (x : string) :
  exists f,
    transformer !! "boolean" = Some f /\
    (Str.lowercase x = "true" -> f x = Ok (PBool true)) /\
    (Str.lowercase x = "false" -> f x = Ok (PBool false)).
Proof.
  eexists. split; [apply transformer_boolean|]. apply boolean_spellings.
Qed.

Lemma boolean_transformer_spellings_witness :
  Str.lowercase "tRuE" = "true" /\
  Py2.literal_eval (Str.capitalize "tRuE") = Ok (PBool true).
Proof.
  split; [reflexivity|].
  destruct (@boolean_transformer_spellings refusing_library "tRuE")
    as (f & Hf & Htrue & _).
  rewrite (@transformer_boolean refusing_library) in Hf.
  injection Hf as <-. exact (Htrue eq_refl).
Defined.

(** ** More on submission and polling *)

Section RunMore.

Context `{Library} {S : Type} `{Client S}.

Lemma poll_unfold fuel json execution :
  poll fuel json execution =
  (status ← lift (getattr "status" (exec_status execution));
   if bool_decide (status = ACTIONEXEC_STATUS_SCHEDULED) ||
      bool_decide (status = ACTIONEXEC_STATUS_RUNNING)
   then
     match fuel with
     | O => lift OutOfFuel
     | Datatypes.S fuel' =>
         emit (EvSleep 1);;
         (if negb json then emit (EvStdout ".") else mret tt);;
         id ← lift (getattr "id" (exec_id execution));
         execution' ← call (EvGetById id) (execution_get_by_id id);
         poll fuel' json execution'
     end
   else mret execution : M S ActionExecution).
Proof. by destruct fuel. Qed.

Lemma waiting_active execution :
  waiting execution <->
  exists status,
    exec_status execution = Some status /\
    bool_decide (status = ACTIONEXEC_STATUS_SCHEDULED) ||
    bool_decide (status = ACTIONEXEC_STATUS_RUNNING) = true.
Proof.
  unfold waiting. split.
  - intros [-> | ->]; by eexists.
  - intros (status & -> & [Hs | Hr]%orb_true_iff).
    + left. by apply bool_decide_eq_true in Hs as ->.
    + right. by apply bool_decide_eq_true in Hr as ->.
Qed.

(** What the loop hands back has left [scheduled] and [running]. *)
Lemma poll_settled fuel :
  forall json execution (w : world S) execution' w',
    poll fuel json execution w = (Ok execution', w') -> settled execution'.
Proof.
  induction fuel as [|fuel IH]; intros json execution w execution' w';
    rewrite poll_unfold, bind_unfold; unfold lift at 1;
    destruct (exec_status execution) as [status|] eqn:Hst; simpl; try done;
    destruct (bool_decide (status = ACTIONEXEC_STATUS_SCHEDULED) ||
              bool_decide (status = ACTIONEXEC_STATUS_RUNNING)) eqn:Hact.
  - done.
  - intros [= <- <-]. exists status. split; [done|].
    apply orb_false_elim in Hact as [Hs Hr].
    split; by apply (bool_decide_eq_false_1 (status = _)).
  - intros Hp.
    apply bind_Ok_inv in Hp as ([] & w1 & _ & Hp).
    apply bind_Ok_inv in Hp as ([] & w2 & _ & Hp).
    apply bind_Ok_inv in Hp as (id & w3 & _ & Hp).
    apply bind_Ok_inv in Hp as (e1 & w4 & _ & Hp).
    by apply (IH _ _ _ _ _ Hp).
  - intros [= <- <-]. exists status. split; [done|].
    apply orb_false_elim in Hact as [Hs Hr].
    split; by apply (bool_decide_eq_false_1 (status = _)).
Qed.

Lemma decode_result_status execution :
  exec_status (decode_result execution) = exec_status execution.
Proof.
  unfold decode_result.
  destruct (exec_result execution) as [[| | | |text| |]|]; try done.
  by destruct (json_loads text).
Qed.

(** The loop only emits sleeps, fetches and, unless [json] is set, dots. *)
Lemma poll_emits (P : event -> Prop) fuel json :
  P (EvSleep 1) -> (json = false -> P (EvStdout ".")) ->
  (forall id, P (EvGetById id)) ->
  forall execution, emits_only P (poll fuel json execution : M S _).
Proof.
  intros Hsleep Hdot Hget. induction fuel as [|fuel IH]; intros execution;
    rewrite poll_unfold; (apply emits_only_bind; [apply emits_only_lift|]);
    intros status; destruct (_ || _); try apply emits_only_ret.
  - apply emits_only_lift.
  - apply emits_only_bind; [by apply emits_only_emit|]. intros _.
    apply emits_only_bind.
    { destruct json; simpl; [apply emits_only_ret|].
      apply emits_only_emit. by apply Hdot. }
    intros _. apply emits_only_bind; [apply emits_only_lift|]. intros id.
    apply emits_only_bind; [by apply emits_only_call|]. apply IH.
Qed.

End RunMore.

Lemma creates_app tr tr' : creates (tr ++ tr') = (creates tr + creates tr')%nat.
Proof. unfold creates. by rewrite List.filter_app, length_app. Qed.

Lemma creates_none evs :
  Forall (fun ev => is_create ev = false) evs ->
  creates evs = 0%nat /\ forall ex, EvCreate ex ∉ evs.
Proof.
  induction 1 as [|ev evs Hev _ [IHc IHn]]; [split; [done|]; intros ex Hex; inversion Hex|].
  split.
  - unfold creates in *. simpl. by rewrite Hev.
  - intros ex [<- | Hex]%elem_of_cons; [discriminate Hev | by apply (IHn ex)].
Qed.

Section RunExtras.

Context `{Library} {S : Type} `{Client S}.

(** X7. [run] calls [create] at most once, and only after both lookups
    have answered and the parameters have resolved: what it submits is
    the reference of the action with exactly the resolved parameters. *)
Theorem create_follows_resolution (fuel : nat) (fs : FileSystem) (args : Args)
  (w : world S) :
  exists evs,
    trace (run fuel fs args w).2 = trace w ++ evs /\
    (creates evs <= 1)%nat /\
    forall ex, EvCreate ex ∈ evs ->
      exists ref_or_id action runner s1 s2 parameters,
        args_ref_or_id args = Some ref_or_id /\
        get_resource_by_ref_or_id ref_or_id (service w) = (inr (Some action), s1) /\
        runner_get_by_name (action_runner_type action) s1 = (inr (Some runner), s2) /\
        resolve_parameters fs runner action (args_parameters args) = Ok parameters /\
        ex = fresh_execution action parameters.
Proof.
  unfold run.
  destruct (args_ref_or_id args) as [[|c r]|] eqn:Href;
    [exists []; rewrite app_nil_r; split_and!;
       [done | unfold creates; simpl; lia | intros ex Hex; inversion Hex] | |
     exists []; rewrite app_nil_r; split_and!;
       [done | unfold creates; simpl; lia | intros ex Hex; inversion Hex]].
  rewrite bind_unfold, call_unfold.
  destruct (get_resource_by_ref_or_id (String c r) (service w))
    as [[err|[action|]] s1] eqn:Ha; simpl.
  1,3: exists [EvGetAction (String c r)]; split_and!; [done | unfold creates; simpl; lia | ];
       intros ex Hex; apply list_elem_of_singleton in Hex; discriminate Hex.
  rewrite bind_unfold, call_unfold. simpl.
  destruct (runner_get_by_name (action_runner_type action) s1)
    as [[err|[runner|]] s2] eqn:Hr; simpl.
  1,3: exists [EvGetAction (String c r); EvGetRunner (action_runner_type action)];
       rewrite <- app_assoc; split_and!; [done | unfold creates; simpl; lia | ];
       intros ex Hex; apply list_elem_of_In in Hex; simpl in Hex;
       destruct Hex as [Hex|[Hex|[]]]; discriminate Hex.
  rewrite bind_unfold. unfold lift at 1.
  destruct (resolve_parameters fs runner action (args_parameters args))
    as [parameters|e| |] eqn:Hp; simpl.
  2,3,4: exists [EvGetAction (String c r); EvGetRunner (action_runner_type action)];
       rewrite <- app_assoc; split_and!; [done | unfold creates; simpl; lia | ];
       intros ex Hex; apply list_elem_of_In in Hex; simpl in Hex;
       destruct Hex as [Hex|[Hex|[]]]; discriminate Hex.
  assert (forall ex : ActionExecution,
            ex = fresh_execution action parameters ->
            exists ref_or_id action0 runner0 s1' s2' parameters0,
              Some (String c r) = Some ref_or_id /\
              get_resource_by_ref_or_id ref_or_id (service w) =
                (inr (Some action0), s1') /\
              runner_get_by_name (action_runner_type action0) s1' =
                (inr (Some runner0), s2') /\
              resolve_parameters fs runner0 action0 (args_parameters args) =
                Ok parameters0 /\
              ex = fresh_execution action0 parameters0) as Hfound.
  { intros ex ->. by eexists _, _, _, _, _, _. }
  rewrite bind_unfold, call_unfold. simpl.
  set (ex0 := {| exec_action := _ |}).
  set (head := [EvGetAction (String c r); EvGetRunner (action_runner_type action);
                EvCreate ex0]).
  assert (((trace w ++ [EvGetAction (String c r)]) ++
           [EvGetRunner (action_runner_type action)]) ++ [EvCreate ex0] =
          trace w ++ head) as Hhead by (by rewrite <- !app_assoc).
  rewrite Hhead.
  assert (forall ex, EvCreate ex ∈ head -> ex = fresh_execution action parameters)
    as Hin.
  { intros ex Hex. apply list_elem_of_In in Hex. simpl in Hex.
    destruct Hex as [Hex|[Hex|[Hex|[]]]]; try discriminate Hex.
    by injection Hex as <-. }
  destruct (execution_create ex0 s2) as [[err|e1] s3] eqn:Hc; simpl.
  { exists head. split_and!; [done | unfold creates; simpl; lia | ]. intros ex Hex. by apply Hfound, Hin. }
  destruct (args_async args); simpl.
  { exists head. split_and!; [done | unfold creates; simpl; lia | ]. intros ex Hex. by apply Hfound, Hin. }
  rewrite bind_unfold.
  destruct (poll_emits (fun ev => is_create ev = false) fuel (args_json args)
              eq_refl (fun _ => eq_refl) (fun _ => eq_refl) e1
              (World s3 (trace w ++ head))) as (evs & Htr & Hevs).
  destruct (creates_none evs Hevs) as [Hzero Hnone].
  destruct (poll fuel (args_json args) e1 (World s3 (trace w ++ head)))
    as [[e2|e| |] w5]; simpl in *.
  1: exists (head ++ evs ++ [EvStdout (String (ascii_of_nat 10) EmptyString)]).
  2,3,4: exists (head ++ evs).
  all: rewrite Htr, <- ?app_assoc; split_and!; [done | |].
  all: try (rewrite !creates_app, Hzero; unfold creates; simpl; lia).
  all: intros ex Hex; apply Hfound;
    apply elem_of_app in Hex as [Hex|Hex]; [by apply Hin|].
  - apply elem_of_app in Hex as [Hex|Hex]; [by destruct (Hnone ex)|].
    apply list_elem_of_singleton in Hex. discriminate Hex.
  - by destruct (Hnone ex).
  - by destruct (Hnone ex).
  - by destruct (Hnone ex).
Qed.

(** X8. In the synchronous mode [run] returns only executions whose status
    has left [scheduled] and [running]. *)
Theorem sync_run_returns_settled (fuel : nat) (fs : FileSystem) (args : Args)
  (w w' : world S) (execution : ActionExecution) :
  args_async args = false ->
  run fuel fs args w = (Ok execution, w') ->
  settled execution.
Proof.
  intros Ha. unfold run. rewrite Ha.
  destruct (args_ref_or_id args) as [[|c r]|]; try done.
  intros (action & w1 & _ & Hrun)%bind_Ok_inv.
  destruct action as [action|]; [|done].
  apply bind_Ok_inv in Hrun as (runner & w2 & _ & Hrun).
  destruct runner as [runner|]; [|done].
  apply bind_Ok_inv in Hrun as (params & w3 & _ & Hrun).
  apply bind_Ok_inv in Hrun as (e1 & w4 & _ & Hrun).
  simpl in Hrun.
  apply bind_Ok_inv in Hrun as (e2 & w5 & Hpoll & Hrun).
  apply bind_Ok_inv in Hrun as ([] & w6 & _ & Hret).
  injection Hret as <- <-.
  destruct (poll_settled _ _ _ _ _ _ Hpoll) as (status & Hst & Hs & Hr).
  exists status. by rewrite decode_result_status.
Qed.

(** X9. An error of [get_by_id] ends the loop with that error, after the one
    sleep and the one fetch of this turn: the fetch is not tried again. *)
Theorem poll_fetch_error (fuel : nat) (json : bool) (execution : ActionExecution)
  (id : string) (w : world S) (err : exn) (s' : S) :
  waiting execution -> exec_id execution = Some id ->
  execution_get_by_id id (service w) = (inl err, s') ->
  poll (Datatypes.S fuel) json execution w =
  (Raise err,
   World s' ((trace w ++ EvSleep 1 :: (if json then [] else [EvStdout "."])) ++
             [EvGetById id])).
Proof.
  intros Hw Hid Hget. rewrite (poll_turn _ _ _ id) by done.
  rewrite bind_unfold, call_unfold. simpl. by rewrite Hget.
Qed.

(** X10. With [--json] the loop prints no dots: all [run] writes is the
    newline after the loop. *)
Theorem json_run_prints_newline_only (fuel : nat) (fs : FileSystem) (args : Args) :
  args_json args = true ->
  emits_only (fun ev => is_stdout ev = true ->
                        ev = EvStdout (String (ascii_of_nat 10) EmptyString))
             (run fuel fs args : M S _).
Proof.
  intros Hj. unfold run.
  destruct (args_ref_or_id args) as [[|c r]|]; try apply emits_only_lift.
  apply emits_only_bind; [by apply emits_only_call|].
  intros [action|]; [|apply emits_only_lift].
  apply emits_only_bind; [by apply emits_only_call|].
  intros [runner|]; [|apply emits_only_lift].
  apply emits_only_bind; [apply emits_only_lift|]. intros params.
  apply emits_only_bind; [by apply emits_only_call|]. intros e.
  destruct (negb (args_async args)); [|apply emits_only_ret].
  rewrite Hj. apply emits_only_bind; [by apply poll_emits|]. intros e'.
  apply emits_only_bind; [by apply emits_only_emit|]. intros _.
  apply emits_only_ret.
Qed.

(** X11. An action or a runner type that the service does not know ends
    [run] with a [ResourceNotFoundError] that names it; the runner type is
    not looked up for an unknown action, and nothing is created. *)
Theorem unknown_action_or_runner (fuel : nat) (fs : FileSystem) (args : Args)
  (w : world S) (ref_or_id : string) :
  args_ref_or_id args = Some ref_or_id -> ref_or_id ≠ EmptyString ->
  (forall s1,
     get_resource_by_ref_or_id ref_or_id (service w) = (inr None, s1) ->
     run fuel fs args w =
     (Raise (Exn ResourceNotFoundError
               ("Action " +:+ dq +:+ ref_or_id +:+ dq +:+ " cannot be found.")),
      World s1 (trace w ++ [EvGetAction ref_or_id]))) /\
  (forall action s1 s2,
     get_resource_by_ref_or_id ref_or_id (service w) = (inr (Some action), s1) ->
     runner_get_by_name (action_runner_type action) s1 = (inr None, s2) ->
     run fuel fs args w =
     (Raise (Exn ResourceNotFoundError
               ("Runner type " +:+ dq +:+ action_runner_type action +:+ dq +:+
                " for action " +:+ dq +:+ action_name action +:+ dq +:+
                " cannot be found.")),
      World s2 (trace w ++ [EvGetAction ref_or_id;
                            EvGetRunner (action_runner_type action)]))).
Proof.
  intros Href Hne. unfold run. rewrite Href.
  destruct ref_or_id as [|c r]; [done|]. split.
  - intros s1 Ha. rewrite bind_unfold, call_unfold, Ha. done.
  - intros action s1 s2 Ha Hr. rewrite bind_unfold, call_unfold, Ha. simpl.
    rewrite bind_unfold, call_unfold. simpl. rewrite Hr. simpl.
    by rewrite <- app_assoc.
Qed.

(** X12. When a keyed token fails, [run] ends with that error after the two
    lookups, whatever follows the token on the line: nothing is created. *)
Theorem failing_token_aborts_run (fuel : nat) (fs : FileSystem) (args : Args)
  (w : world S) (ref_or_id : string) (action : Action) (runner : RunnerType)
  (s1 s2 : S) (pre rest : list string) (arg : string)
  (params : gmap string pyval) (e : exn) :
  args_ref_or_id args = Some ref_or_id -> ref_or_id ≠ EmptyString ->
  get_resource_by_ref_or_id ref_or_id (service w) = (inr (Some action), s1) ->
  runner_get_by_name (action_runner_type action) s1 = (inr (Some runner), s2) ->
  args_parameters args = pre ++ arg :: rest ->
  Forall (fun a => Str.has_char "=" a = true) pre ->
  scan_parameters fs runner action pre ∅ = Ok params ->
  Str.has_char "=" arg = true ->
  keyed_token fs runner action arg params = Raise e ->
  run fuel fs args w =
  (Raise e, World s2 (trace w ++ [EvGetAction ref_or_id;
                                  EvGetRunner (action_runner_type action)])).
Proof.
  intros Href Hne Ha Hr Hargs Hpre Hscan Harg Hkeyed.
  apply (run_resolution_fails fuel fs args w ref_or_id action runner s1 s2 e);
    try done.
  unfold resolve_parameters. rewrite Hargs, scan_app, Hscan by done.
  cbn [mbind result_bind]. rewrite scan_cons_keyed, Hkeyed by done. done.
Qed.

End RunExtras.

(** X13. On a service that answers [get_by_id] with a run of executions that
    are still waiting and then a settled one, the loop fetches once for
    each of them, returns the settled one, and leaves the rest of the
    answers unread. *)
Theorem polling_counts_fetches (queue : list ActionExecution)
  (final : ActionExecution) (rest : list ActionExecution) (fuel : nat)
  (json : bool) (execution : ActionExecution) (id : string) (s : script)
  (tr : list event) :
  waiting execution -> exec_id execution = Some id ->
  Forall (fun x => waiting x /\ is_Some (exec_id x)) queue ->
  settled final ->
  script_fetches s = queue ++ final :: rest ->
  exists tr',
    poll (Datatypes.S (length queue) + fuel) json execution (World s tr) =
      (Ok final, World (with_fetches s rest) tr') /\
    refetches tr' = (refetches tr + Datatypes.S (length queue))%nat.
Proof. intros. by eapply poll_scripted. Qed.

Lemma sync_run_returns_settled_witness :
  args_async (noop_args false) = false /\
  @run refusing_library script scripted_client 3 one_file_fs (noop_args false)
    (World three_fetches []) =
    (Ok (reported "succeeded"),
     World (with_fetches three_fetches []) three_fetches_trace) /\
  settled (reported "succeeded").
Proof.
  assert (@run refusing_library script scripted_client 3 one_file_fs
            (noop_args false) (World three_fetches []) =
          (Ok (reported "succeeded"),
           World (with_fetches three_fetches []) three_fetches_trace)) as Hrun
    by reflexivity.
  split; [reflexivity|]. split; [exact Hrun|].
  exact (@sync_run_returns_settled refusing_library script scripted_client 3%nat
           one_file_fs (noop_args false) _ _ _ eq_refl Hrun).
Defined.

Lemma poll_fetch_error_witness :
  waiting (reported "running") /\
  exec_id (reported "running") = Some "42" /\
  execution_get_by_id "42" (service (World (with_fetches three_fetches []) [])) =
    (inl (Exn IOError "Connection refused"), with_fetches three_fetches []) /\
  @poll script scripted_client 1 false (reported "running")
    (World (with_fetches three_fetches []) []) =
  (Raise (Exn IOError "Connection refused"),
   World (with_fetches three_fetches [])
     ((trace (World (with_fetches three_fetches []) []) ++
       EvSleep 1 :: (if false then [] else [EvStdout "."])) ++ [EvGetById "42"])).
Proof.
  assert (waiting (reported "running")) as H1 by (right; reflexivity).
  split; [exact H1|]. split; [reflexivity|]. split; [reflexivity|].
  exact (@poll_fetch_error script scripted_client 0%nat false (reported "running")
           "42" (World (with_fetches three_fetches []) []) _ _ H1 eq_refl eq_refl).
Defined.

Lemma json_run_prints_newline_only_witness :
  args_json maybe_args = true /\
  emits_only (fun ev => is_stdout ev = true ->
                        ev = EvStdout (String (ascii_of_nat 10) EmptyString))
             (@run refusing_library script scripted_client 3 one_file_fs maybe_args).
Proof.
  split; [reflexivity|].
  exact (@json_run_prints_newline_only refusing_library script scripted_client
           3%nat one_file_fs maybe_args eq_refl).
Defined.

Lemma unknown_action_or_runner_witness :
  args_ref_or_id (noop_args false) = Some "core.noop" /\
  "core.noop" ≠ EmptyString /\
  @run refusing_library script scripted_client 3 one_file_fs (noop_args false)
    (World no_action_script []) =
    (Raise (Exn ResourceNotFoundError
              ("Action " +:+ dq +:+ "core.noop" +:+ dq +:+ " cannot be found.")),
     World no_action_script ([] ++ [EvGetAction "core.noop"])) /\
  @run refusing_library script scripted_client 3 one_file_fs (noop_args false)
    (World no_runner_script []) =
    (Raise (Exn ResourceNotFoundError
              ("Runner type " +:+ dq +:+ action_runner_type bare_action +:+ dq +:+
               " for action " +:+ dq +:+ action_name bare_action +:+ dq +:+
               " cannot be found.")),
     World no_runner_script
       ([] ++ [EvGetAction "core.noop"; EvGetRunner (action_runner_type bare_action)])).
Proof.
  assert ("core.noop" ≠ EmptyString) as Hne by discriminate.
  split; [reflexivity|]. split; [exact Hne|]. split.
  - exact (proj1 (@unknown_action_or_runner refusing_library script scripted_client
                    3%nat one_file_fs (noop_args false) (World no_action_script [])
                    "core.noop" eq_refl Hne) no_action_script eq_refl).
  - exact (proj2 (@unknown_action_or_runner refusing_library script scripted_client
                    3%nat one_file_fs (noop_args false) (World no_runner_script [])
                    "core.noop" eq_refl Hne)
             bare_action no_runner_script no_runner_script eq_refl eq_refl).
Defined.

Lemma failing_token_aborts_run_witness :
  args_ref_or_id maybe_args = Some "core.noop" /\
  "core.noop" ≠ EmptyString /\
  get_resource_by_ref_or_id "core.noop" (service (World three_fetches [])) =
    (inr (Some bare_action), three_fetches) /\
  runner_get_by_name (action_runner_type bare_action) three_fetches =
    (inr (Some flag_runner), three_fetches) /\
  args_parameters maybe_args = ["x=1"] ++ "flag=maybe" :: ["y=2"] /\
  Forall (fun a => Str.has_char "=" a = true) ["x=1"] /\
  @scan_parameters refusing_library one_file_fs flag_runner bare_action ["x=1"] ∅ =
    Ok {[ "x" := PInt 1 ]} /\
  Str.has_char "=" "flag=maybe" = true /\
  @keyed_token refusing_library one_file_fs flag_runner bare_action "flag=maybe"
    {[ "x" := PInt 1 ]} = Raise (Exn ValueError boolean_message) /\
  @run refusing_library script scripted_client 3 one_file_fs maybe_args
    (World three_fetches []) =
  (Raise (Exn ValueError boolean_message),
   World three_fetches
     ([] ++ [EvGetAction "core.noop"; EvGetRunner (action_runner_type bare_action)])).
Proof.
  assert ("core.noop" ≠ EmptyString) as Hne by discriminate.
  assert (Forall (fun a => Str.has_char "=" a = true) ["x=1"]) as Hpre
    by (repeat constructor).
  split; [reflexivity|]. split; [exact Hne|]. split; [reflexivity|].
  split; [reflexivity|]. split; [reflexivity|]. split; [exact Hpre|].
  split; [reflexivity|]. split; [reflexivity|]. split; [reflexivity|].
  exact (@failing_token_aborts_run refusing_library script scripted_client 3%nat
           one_file_fs maybe_args (World three_fetches []) "core.noop" bare_action
           flag_runner three_fetches three_fetches ["x=1"] ["y=2"] "flag=maybe"
           {[ "x" := PInt 1 ]} (Exn ValueError boolean_message)
           eq_refl Hne eq_refl eq_refl eq_refl Hpre eq_refl eq_refl eq_refl).
Defined.

Lemma polling_counts_fetches_witness :
  waiting (reported "scheduled") /\
  exec_id (reported "scheduled") = Some "42" /\
  Forall (fun x => waiting x /\ is_Some (exec_id x))
         [reported "running"; reported "running"] /\
  settled (reported "succeeded") /\
  script_fetches three_fetches =
    [reported "running"; reported "running"] ++ reported "succeeded" :: [] /\
  exists tr',
    @poll script scripted_client
      (Datatypes.S (length [reported "running"; reported "running"]) + 0) false
      (reported "scheduled") (World three_fetches []) =
      (Ok (reported "succeeded"), World (with_fetches three_fetches []) tr') /\
    refetches tr' =
      (refetches [] +
       Datatypes.S (length [reported "running"; reported "running"]))%nat.
Proof.
  assert (waiting (reported "scheduled")) as H1 by (left; reflexivity).
  assert (Forall (fun x => waiting x /\ is_Some (exec_id x))
            [reported "running"; reported "running"]) as H3.
  { repeat constructor; try (right; reflexivity); eexists; reflexivity. }
  assert (settled (reported "succeeded")) as H4.
  { exists "succeeded". split; [reflexivity|]. split; discriminate. }
  split; [exact H1|]. split; [reflexivity|]. split; [exact H3|].
  split; [exact H4|]. split; [reflexivity|].
  exact (polling_counts_fetches [reported "running"; reported "running"]
           (reported "succeeded") [] 0%nat false (reported "scheduled") "42"
           three_fetches [] H1 eq_refl H3 H4 eq_refl).
Defined.

(** ** Help renderer: printing *)

Section HelpProps.

Context `{Library} `{Console} `{HelpData} {S : Type} `{Client S}.

Lemma emits_only_catch (P : event -> Prop) {A} (m : M S A) (h : exn -> M S A) :
  emits_only P m -> (forall e, emits_only P (h e)) ->
  emits_only P (fun w => match m w with
                         | (Raise e, w') => h e w'
                         | outcome => outcome
                         end).
Proof.
  intros Hm Hh w. destruct (Hm w) as (evs & Htr & Hevs).
  destruct (m w) as [[a|e| |] w1]; simpl in *; eauto.
  destruct (Hh e w1) as (evs' & Htr' & Hevs').
  exists (evs ++ evs'). rewrite Htr', Htr, app_assoc. split; [done|].
  by apply Forall_app.
Qed.

Section Emits.

Variable P : event -> Prop.
Hypothesis P_stdout : forall text, P (EvStdout text).
Hypothesis P_get_action : forall ref_or_id, P (EvGetAction ref_or_id).
Hypothesis P_get_runner : forall name, P (EvGetRunner name).

Lemma print_line_emits text : emits_only P (print_line text : M S unit).
Proof. by apply emits_only_emit. Qed.

Lemma attribute_line_emits schema attr text_of :
  emits_only P (attribute_line schema attr text_of : M S unit).
Proof.
  unfold attribute_line. destruct (schema !! attr) as [v|]; [|apply emits_only_ret].
  destruct (truthy v); [|apply emits_only_ret].
  apply emits_only_bind; [apply emits_only_lift|]. intros text.
  apply print_line_emits.
Qed.

Lemma print_param_emits name schema :
  emits_only P (print_param name schema : M S unit).
Proof.
  unfold print_param. destruct schema as [schema|]; [|apply emits_only_lift].
  destruct (bool_decide (schema = ∅)); [apply emits_only_lift|].
  repeat (apply emits_only_bind;
          [first [apply print_line_emits | apply attribute_line_emits]|];
          intros _).
  apply print_line_emits.
Qed.

Lemma print_params_emits parameters names :
  emits_only P (print_params parameters names : M S unit).
Proof.
  induction names as [|name names IH]; simpl; [apply emits_only_ret|].
  apply emits_only_bind; [apply print_param_emits | by intros _].
Qed.

Lemma print_section_emits heading parameters names :
  emits_only P (print_section heading parameters names : M S unit).
Proof.
  unfold print_section. destruct (bool_decide (names = ∅)); [apply emits_only_ret|].
  apply emits_only_bind; [apply emits_only_lift|]. intros sorted_names.
  apply emits_only_bind; [apply print_line_emits|]. intros _.
  apply print_params_emits.
Qed.

Lemma help_body_emits ref_or_id : emits_only P (help_body ref_or_id : M S unit).
Proof.
  unfold help_body. apply emits_only_bind; [by apply emits_only_call|].
  intros [action|]; [|apply emits_only_lift].
  apply emits_only_bind; [by apply emits_only_call|].
  intros [runner|]; [|apply emits_only_lift].
  destruct (_get_params_types runner action) as [[[parameters required] optional] ?].
  apply emits_only_bind; [apply print_line_emits|]. intros _.
  apply emits_only_bind; [apply emits_only_lift|]. intros description.
  apply emits_only_bind; [apply print_line_emits|]. intros _.
  apply emits_only_bind; [apply print_line_emits|]. intros _.
  apply emits_only_bind; [apply print_section_emits|]. intros _.
  apply print_section_emits.
Qed.

Lemma help_handler_emits ref_or_id e :
  emits_only P (help_handler ref_or_id e : M S unit).
Proof.
  unfold help_handler.
  destruct (bool_decide (exn_cls e = ResourceNotFoundError));
    [apply print_line_emits|].
  destruct (is_Exception e); [apply print_line_emits | apply emits_only_lift].
Qed.

Lemma print_help_emits args : emits_only P (print_help args : M S bool).
Proof.
  unfold print_help. destruct (args_help args); [|apply emits_only_ret].
  destruct (args_ref_or_id args) as [[|c r]|].
  1,3: apply emits_only_bind; [by apply emits_only_emit | intros _; apply emits_only_ret].
  apply emits_only_bind; [|intros _; apply emits_only_ret].
  apply emits_only_catch; [apply help_body_emits | apply help_handler_emits].
Qed.

End Emits.

(** With the flag set, [print_help] answers [True] whenever it returns. *)
Lemma print_help_true args (w w' : world S) helped :
  args_help args = true -> print_help args w = (Ok helped, w') -> helped = true.
Proof.
  intros Hh. unfold print_help. rewrite Hh.
  destruct (args_ref_or_id args) as [[|c r]|];
    intros (? & ? & _ & Hret)%bind_Ok_inv; by injection Hret as <- <-.
Qed.

(** An error that leaves [print_help] is not an [Exception]. *)
Lemma print_help_raises args (w : world S) e :
  (print_help args w).1 = Raise e -> is_Exception e = false.
Proof.
  unfold print_help. destruct (args_help args); [|done].
  destruct (args_ref_or_id args) as [[|c r]|]; try done.
  cbv [mbind M_bind].
  destruct (help_body (String c r) w) as [[[]|e'| |] w1]; try done.
  unfold help_handler, print_line, emit.
  destruct (bool_decide (exn_cls e' = ResourceNotFoundError)); [done|].
  destruct (is_Exception e') eqn:He'; [done|].
  simpl. by intros [= <-].
Qed.

(** X14. With [--help], [run_and_print] only looks up and prints: it never
    creates or fetches an execution, and no [Exception] leaves it. *)
Theorem help_never_submits (fuel : nat) (fs : FileSystem) (args : Args) :
  args_help args = true ->
  emits_only submits_nothing (run_and_print fuel fs args : M S unit) /\
  forall (w : world S) e,
    (run_and_print fuel fs args w).1 = Raise e -> is_Exception e = false.
Proof.
  intros Hh. split.
  - intros w. unfold run_and_print. rewrite bind_unfold.
    destruct (print_help_emits submits_nothing
                (fun _ => conj eq_refl eq_refl) (fun _ => conj eq_refl eq_refl)
                (fun _ => conj eq_refl eq_refl) args w) as (evs & Htr & Hevs).
    destruct (print_help args w) as [[helped|e| |] w1] eqn:E; simpl in *; eauto.
    rewrite (print_help_true _ _ _ _ Hh E). simpl. eauto.
  - intros w e. unfold run_and_print. rewrite bind_unfold.
    pose proof (print_help_raises args w) as Hr.
    destruct (print_help args w) as [[helped|e'| |] w1] eqn:E; simpl in *;
      try done.
    + by rewrite (print_help_true _ _ _ _ Hh E).
    + intros [= <-]. by apply Hr.
Qed.

(** X15. How [print_help] reports a failed lookup. An action the service
    answers [None] for is reported through the [AttributeError] of reading
    its runner type; a [ResourceNotFoundError] is reported as the action
    not being found, also when it is the lookup of the runner type that
    raised it. In each case [print_help] returns [True]. *)
Theorem help_reports_lookup_failures (args : Args) (w : world S)
  (ref_or_id : string) :
  args_help args = true ->
  args_ref_or_id args = Some ref_or_id -> ref_or_id ≠ EmptyString ->
  (forall s1,
     get_resource_by_ref_or_id ref_or_id (service w) = (inr None, s1) ->
     print_help args w =
     (Ok true,
      World s1 (trace w ++
        [EvGetAction ref_or_id;
         EvStdout (("ERROR: Unable to print help for action " +:+ dq +:+
                    ref_or_id +:+ dq +:+ ". " +:+
                    "'NoneType' object has no attribute 'runner_type'") +:+
                   newline)]))) /\
  (forall e s1,
     get_resource_by_ref_or_id ref_or_id (service w) = (inl e, s1) ->
     exn_cls e = ResourceNotFoundError ->
     print_help args w =
     (Ok true,
      World s1 (trace w ++
        [EvGetAction ref_or_id;
         EvStdout (("Action " +:+ dq +:+ ref_or_id +:+ dq +:+ " is not found.")
                   +:+ newline)]))) /\
  (forall action e s1 s2,
     get_resource_by_ref_or_id ref_or_id (service w) = (inr (Some action), s1) ->
     runner_get_by_name (action_runner_type action) s1 = (inl e, s2) ->
     exn_cls e = ResourceNotFoundError ->
     print_help args w =
     (Ok true,
      World s2 (trace w ++
        [EvGetAction ref_or_id; EvGetRunner (action_runner_type action);
         EvStdout (("Action " +:+ dq +:+ ref_or_id +:+ dq +:+ " is not found.")
                   +:+ newline)]))).
Proof.
  intros Hh Href Hne. unfold print_help. rewrite Hh, Href.
  destruct ref_or_id as [|c r]; [done|]. split_and!.
  - intros s1 Ha. cbv [mbind M_bind]. unfold help_body at 1.
    cbv [mbind M_bind]. rewrite call_unfold, Ha. simpl. 
    by rewrite <- app_assoc.
  - intros e s1 Ha He. cbv [mbind M_bind]. unfold help_body at 1.
    cbv [mbind M_bind]. rewrite call_unfold, Ha. simpl.
    unfold help_handler. rewrite bool_decide_eq_true_2 by done. simpl.
    by rewrite <- app_assoc.
  - intros action e s1 s2 Ha Hr He. cbv [mbind M_bind]. unfold help_body at 1.
    cbv [mbind M_bind]. rewrite call_unfold, Ha. cbn [fst snd of_sum].
    rewrite call_unfold. cbn [service]. rewrite Hr. simpl.
    unfold help_handler. rewrite bool_decide_eq_true_2 by done. simpl.
    by rewrite <- !app_assoc.
Qed.

(** X16. An attribute of a parameter whose value is false in Python (a
    default of 0 or [False], an empty description, ...) is left out of the
    help exactly as if the schema did not have it. *)
Theorem falsy_attribute_not_shown (name attr : string)
  (schema : gmap string pyval) (v : pyval) (w : world S) :
  attr ∈ ["description"; "type"; "enum"; "default"] ->
  schema !! attr = Some v -> truthy v = false ->
  delete attr schema ≠ ∅ ->
  print_param name (Some schema) w = print_param name (Some (delete attr schema)) w.
Proof.
  intros Hattr Hv Hfalsy Hne. unfold print_param.
  assert (schema ≠ ∅) as Hne' by (intros ->; by rewrite lookup_empty in Hv).
  rewrite !bool_decide_eq_false_2 by done.
  assert (forall a text_of,
            attribute_line (delete attr schema) a text_of =
            (attribute_line schema a text_of : M S unit)) as Hline.
  { intros a text_of. unfold attribute_line.
    destruct (decide (a = attr)) as [->|Ha].
    - by rewrite lookup_delete_eq, Hv, Hfalsy.
    - by rewrite lookup_delete_ne. }
  by rewrite !Hline.
Qed.

End HelpProps.

Lemma help_never_submits_witness :
  args_help help_args = true /\
  emits_only submits_nothing
    (@run_and_print refusing_library plain_console plain_help_data script
       scripted_client 3 one_file_fs help_args) /\
  forall (w : world script) e,
    (@run_and_print refusing_library plain_console plain_help_data script
       scripted_client 3 one_file_fs help_args w).1 = Raise e ->
    is_Exception e = false.
Proof.
  split; [reflexivity|].
  exact (@help_never_submits refusing_library plain_console plain_help_data script
           scripted_client 3%nat one_file_fs help_args eq_refl).
Defined.

Lemma help_reports_lookup_failures_witness :
  args_help help_args = true /\
  args_ref_or_id help_args = Some "core.noop" /\
  "core.noop" ≠ EmptyString /\
  get_resource_by_ref_or_id "core.noop" (service (World no_action_script [])) =
    (inr None, no_action_script) /\
  @print_help plain_console plain_help_data script scripted_client help_args
    (World no_action_script []) =
  (Ok true,
   World no_action_script
     ([] ++
      [EvGetAction "core.noop";
       EvStdout (("ERROR: Unable to print help for action " +:+ dq +:+
                  "core.noop" +:+ dq +:+ ". " +:+
                  "'NoneType' object has no attribute 'runner_type'") +:+
                 newline)])).
Proof.
  assert ("core.noop" ≠ EmptyString) as Hne by discriminate.
  split; [reflexivity|]. split; [reflexivity|]. split; [exact Hne|].
  split; [reflexivity|].
  exact (proj1 (@help_reports_lookup_failures plain_console plain_help_data script
                  scripted_client help_args (World no_action_script [])
                  "core.noop" eq_refl eq_refl Hne) no_action_script eq_refl).
Defined.

Lemma falsy_attribute_not_shown_witness :
  "default" ∈ ["description"; "type"; "enum"; "default"] /\
  retries_schema !! "default" = Some (PInt 0) /\
  truthy (PInt 0) = false /\
  delete "default" retries_schema ≠ ∅ /\
  @print_param plain_console script "retries" (Some retries_schema)
    (World three_fetches []) =
  @print_param plain_console script "retries"
    (Some (delete "default" retries_schema)) (World three_fetches []).
Proof.
  assert ("default" ∈ ["description"; "type"; "enum"; "default"]) as H1.
  { apply list_elem_of_In. simpl. tauto. }
  assert (retries_schema !! "default" = Some (PInt 0)) as H2 by reflexivity.
  assert (delete "default" retries_schema ≠ ∅) as H4.
  { intros Heq.
    assert (delete "default" retries_schema !! "type" = None) as Hnone
      by (rewrite Heq; apply lookup_empty).
    vm_compute in Hnone. discriminate Hnone. }
  split; [exact H1|]. split; [exact H2|]. split; [reflexivity|].
  split; [exact H4|].
  exact (@falsy_attribute_not_shown plain_console script "retries" "default"
           retries_schema (PInt 0) (World three_fetches []) H1 H2 eq_refl H4).
Defined.

(** ** More on the order of the parameters *)

Section Stability.

Variable k : string -> sort_key.

Lemma filter_insert_by v x l :
  filter (fun y => k y = v) (insert_by k x l) =
  filter (fun y => k y = v) (x :: l).
Proof.
  induction l as [|y l IH]; simpl; [done|].
  destruct (key_lt (k y) (k x)) eqn:Hlt; [|done].
  rewrite filter_cons, IH, !filter_cons.
  destruct (decide (k y = v)) as [Hy|Hy], (decide (k x = v)) as [Hx|Hx];
    try done.
  rewrite Hy, Hx, key_lt_irrefl in Hlt. discriminate Hlt.
Qed.

Lemma filter_sort_by v l :
  filter (fun y => k y = v) (sort_by k l) = filter (fun y => k y = v) l.
Proof.
  induction l as [|x l IH]; simpl; [done|].
  by rewrite filter_insert_by, !filter_cons, IH.
Qed.

End Stability.

(** X17. The sort is stable. The names that share a sort value come out in
    the order in which they were given; so do the parameters without a
    usable schema, whose sort value is [None]. *)
Theorem sort_parameters_stable (parameters : gmap string (gmap string pyval))
  (names : list string) :
  (forall name, name ∈ names ->
     is_Some (as_key (_get_parameter_sort_value parameters name))) ->
  exists out,
    _sort_parameters parameters names = Ok out /\
    forall v,
      filter (fun name => sort_key_of parameters name = v) out =
      filter (fun name => sort_key_of parameters name = v) names.
Proof.
  intros Hk. exists (sort_by (sort_key_of parameters) names). split.
  - by apply sort_parameters_sort_by.
  - intros v. apply filter_sort_by.
Qed.

Lemma sort_parameters_stable_witness :
  (forall name, name ∈ ["b"; "alpha"; "a"] ->
     is_Some (as_key (_get_parameter_sort_value positioned name))) /\
  exists out,
    _sort_parameters positioned ["b"; "alpha"; "a"] = Ok out /\
    forall v,
      filter (fun name => sort_key_of positioned name = v) out =
      filter (fun name => sort_key_of positioned name = v) ["b"; "alpha"; "a"].
Proof.
  assert (forall name, name ∈ ["b"; "alpha"; "a"] ->
     is_Some (as_key (_get_parameter_sort_value positioned name))) as Hk.
  { intros name Hn. apply list_elem_of_In in Hn. simpl in Hn.
    destruct Hn as [<-|[<-|[<-|[]]]]; eexists; vm_compute; reflexivity. }
  split; [exact Hk|].
  exact (sort_parameters_stable positioned ["b"; "alpha"; "a"] Hk).
Defined.

(** ** Listing executions *)

Lemma single_attributes_all (attr : list string) :
  (list_to_set attr =@{gset string} list_to_set display_attributes ->
   single_attributes attr = ["all"]) /\
  (list_to_set attr ≠@{gset string} list_to_set display_attributes ->
   single_attributes attr = attr).
Proof.
  unfold single_attributes. split.
  - intros ->. rewrite difference_diag_L.
    by rewrite !bool_decide_eq_false_2 by (by intros []).
  - intros Hne.
    destruct (bool_decide (list_to_set attr ∖ list_to_set display_attributes
                           ≠@{gset string} ∅)) eqn:H1; [done|].
    destruct (bool_decide (list_to_set display_attributes ∖ list_to_set attr
                           ≠@{gset string} ∅)) eqn:H2; [done|].
    apply bool_decide_eq_false in H1, H2.
    apply dec_stable in H1, H2. exfalso. apply Hne.
    apply set_eq. intros x. split; intros Hx.
    + destruct (decide (x ∈ (list_to_set display_attributes : gset string)));
        [done|].
      assert (x ∈ list_to_set attr ∖ (list_to_set display_attributes : gset string))
        as Hin by (by apply elem_of_difference).
      rewrite H1 in Hin. by apply not_elem_of_empty in Hin.
    + destruct (decide (x ∈ (list_to_set attr : gset string))); [done|].
      assert (x ∈ list_to_set display_attributes ∖ (list_to_set attr : gset string))
        as Hin by (by apply elem_of_difference).
      rewrite H2 in Hin. by apply not_elem_of_empty in Hin.
Qed.

(** X18. When the query answers a single execution it is shown as a
    property table, with all its attributes if the requested attributes
    are, as a set, the ones shown by default (in any order, repeated or not),
    and with the requested attributes otherwise; any other number of
    executions is shown as columns of the requested attributes. *)
Theorem single_execution_attributes {S : Type} `{QueryClient S}
  (args : ListArgs) (kwargs : gmap string pyval) (s s' : S)
  (instances : list ActionExecution) :
  list_filters args kwargs !! "limit" = None ->
  execution_query (list_last args) (list_filters args kwargs) s =
    (inr instances, s') ->
  (forall instance, instances = [instance] ->
     list_run_and_print args kwargs s =
     (inr (PropertyValueTable instance
             (if decide (list_to_set (list_attr args) =@{gset string}
                         list_to_set display_attributes)
              then ["all"] else list_attr args)
             (list_json args)), s')) /\
  (length instances ≠ 1%nat ->
   list_run_and_print args kwargs s =
   (inr (MultiColumnTable instances (list_attr args) (list_width args)
           (list_json args)), s')).
Proof.
  intros Hlimit Hq. unfold list_run_and_print, list_run.
  rewrite bool_decide_eq_false_2 by (rewrite Hlimit; by intros [? ?]).
  rewrite Hq. split.
  - intros instance ->. do 3 f_equal.
    destruct (single_attributes_all (list_attr args)) as [Hall Hattr].
    destruct (decide _); [by apply Hall | by apply Hattr].
  - intros Hlen. by destruct instances as [|? [|? ?]].
Qed.

Lemma single_execution_attributes_witness :
  list_filters default_list_args ∅ !! "limit" = None /\
  execution_query (list_last default_list_args)
    (list_filters default_list_args ∅) [reported "succeeded"] =
    (inr [reported "succeeded"], [reported "succeeded"]) /\
  list_run_and_print default_list_args ∅ [reported "succeeded"] =
  (inr (PropertyValueTable (reported "succeeded")
          (if decide (list_to_set (list_attr default_list_args) =@{gset string}
                      list_to_set display_attributes)
           then ["all"] else list_attr default_list_args)
          (list_json default_list_args)), [reported "succeeded"]).
Proof.
  split; [reflexivity|]. split; [reflexivity|].
  exact (proj1 (@single_execution_attributes (list ActionExecution) listing_client
                  default_list_args ∅ [reported "succeeded"]
                  [reported "succeeded"] [reported "succeeded"]
                  eq_refl eq_refl) (reported "succeeded") eq_refl).
Defined.

(** The default attributes in another order, one of them twice, still show
    the whole execution. *)
Example reordered_attributes_show_all :
  single_attributes (list_attr default_list_args) = ["all"].
Proof. vm_compute. reflexivity. Qed.
